(** * Cloud_project_migration: the policy pipeline and the object copier

    A shallow embedding of [backend/app.py]: the two request handlers
    [fetch_from_s3] and [upload_and_process], the four tables they write,
    the [SELECT] that rates every stored policy, and the JSON document that
    is published to the bucket.

    Conventions.
    - A [DECIMAL(p,s)] column holds an integer count of [10^-s] units, as
      the server stores it; arithmetic on such values follows the server's
      exact-value rules (scale of a sum, a product and a quotient).
    - A number of the request document is kept as the exact decimal that
      was written in the text. A number that a column holds with all its
      digits is stored exactly; how the server rounds any other number,
      which reaches it as a binary float, is left to the server
      ([inexact_to_decimal], [inexact_to_int]), and so is the text of
      [float(...)] on the way out ([float_repr]).
    - The table definitions name no collation: the server compares the
      texts of a column by their weights in the collation it was set up
      with, which is a parameter here ([collation]). Stock servers ignore
      the case of letters. The server runs in strict SQL mode.
    - The tables use a transactional engine and the driver leaves
      autocommit off: statements of a connection that is closed without
      [commit] leave no trace.
    - One request runs at a time. Whether a write to an object store is
      accepted is for the store to say ([put_object_raises],
      [upload_blob_raises]). *)

From Stdlib Require Import ZArith QArith Lia.
From stdpp Require Import gmap strings list pretty.

Local Open Scope string_scope.
Local Open Scope Z_scope.

(** ** Exact decimals *)

Record decimal := Dec { unscaled : Z; scale : nat }.

Definition pow10 (n : nat) : Z := 10 ^ Z.of_nat n.

(** The rational a decimal stands for. *)
Definition dec_value (d : decimal) : Q :=
  Qmake (unscaled d) (Z.to_pos (pow10 (scale d))).

(** The digits of [d] when written with [s >= scale d] fractional digits. *)
Definition align (s : nat) (d : decimal) : Z :=
  unscaled d * pow10 (s - scale d).

Definition dec_add (a b : decimal) : decimal :=
  let s := Nat.max (scale a) (scale b) in Dec (align s a + align s b) s.

Definition dec_sub (a b : decimal) : decimal :=
  let s := Nat.max (scale a) (scale b) in Dec (align s a - align s b) s.

Definition dec_mul (a b : decimal) : decimal :=
  Dec (unscaled a * unscaled b) (scale a + scale b).

(** [n / d] for [0 < d], rounded to the nearest integer, ties away from
    zero. *)
Definition round_div (n d : Z) : Z :=
  Z.sgn n * ((2 * Z.abs n + d) / (2 * d)).

(** The server's [div_precision_increment]. *)
Definition div_precision_increment : nat := 4.

(** Division by a non-zero integer literal: the quotient carries
    [div_precision_increment] more fractional digits than the dividend. *)
Definition dec_div_int (a : decimal) (n : positive) : decimal :=
  Dec (round_div (unscaled a * pow10 div_precision_increment) (Z.pos n))
      (scale a + div_precision_increment).

Definition dec_ltb (a b : decimal) : bool :=
  let s := Nat.max (scale a) (scale b) in align s a <? align s b.

(** Rounding to [s] fractional digits, ties away from zero. *)
Definition dec_round (s : nat) (d : decimal) : Z :=
  if (scale d <=? s)%nat then align s d
  else round_div (unscaled d) (pow10 (scale d - s)).

(** ** The four tables

    The [id INT AUTO_INCREMENT] key of each table is never read by the
    program and is left out; a table is the list of its rows in insertion
    order. *)

Module Policy.
Record row := Row {
  policy_id : string;        (* VARCHAR(50)    *)
  policy_type : string;      (* VARCHAR(255)   *)
  base_premium : Z;          (* DECIMAL(10, 2) *)
  vehicle_damage : Z;        (* DECIMAL(10, 2) *)
  risk_factor : string;      (* VARCHAR(20)    *)
  discount : Z;              (* DECIMAL(5, 2)  *)
  branch_id : string         (* VARCHAR(10)    *)
}.
End Policy.

Module CustomerInfo.
Record row := Row {
  policy_id : string;        (* VARCHAR(50)  *)
  name : string;             (* VARCHAR(255) *)
  age : Z;                   (* INT          *)
  address : string           (* VARCHAR(255) *)
}.
End CustomerInfo.

Module VehicleInfo.
Record row := Row {
  policy_id : string;        (* VARCHAR(50)    *)
  make : string;             (* VARCHAR(255)   *)
  model : string;            (* VARCHAR(255)   *)
  year : Z;                  (* INT            *)
  vehicle_damage : Z         (* DECIMAL(10, 2) *)
}.
End VehicleInfo.

Module CoverageInfo.
Record row := Row {
  policy_id : string;        (* VARCHAR(50)    *)
  liability : Z;             (* DECIMAL(10, 2) *)
  collision : Z;             (* DECIMAL(10, 2) *)
  comprehensive : Z;         (* DECIMAL(10, 2) *)
  discount : Z               (* DECIMAL(5, 2)  *)
}.
End CoverageInfo.

Record database := Database {
  policy : list Policy.row;
  customer_info : list CustomerInfo.row;
  vehicle_info : list VehicleInfo.row;
  coverage_info : list CoverageInfo.row
}.

(** ** Collations

    The server compares two texts of a column by their weights (what
    [WEIGHT_STRING] returns). Every collation tells the names of the three
    risk tiers apart. *)
Record collation := Collation {
  weight : string -> string;
  tiers_apart :
    weight "low" <> weight "medium" /\ weight "low" <> weight "high"
    /\ weight "medium" <> weight "high"
}.

(** [a = b] in SQL. *)
Definition collate (co : collation) (a b : string) : bool :=
  String.eqb (weight co a) (weight co b).

Definition upper (c : Ascii.ascii) : Ascii.ascii :=
  let n := Ascii.nat_of_ascii c in
  if (97 <=? n)%nat && (n <=? 122)%nat then Ascii.ascii_of_nat (n - 32) else c.

Fixpoint upper_string (s : string) : string :=
  match s with
  | EmptyString => EmptyString
  | String c rest => String (upper c) (upper_string rest)
  end.

(** [s] without the spaces at its end. *)
Fixpoint rstrip (s : string) : string :=
  match s with
  | EmptyString => EmptyString
  | String c rest =>
      let r := rstrip rest in
      if String.eqb r EmptyString && Ascii.eqb c (Ascii.ascii_of_nat 32)
      then EmptyString else String c r
  end.

Definition binary_tiers_apart :
  "low" <> "medium" /\ "low" <> "high" /\ "medium" <> "high".
Proof. repeat split; discriminate. Qed.

Definition general_ci_tiers_apart :
  rstrip (upper_string "low") <> rstrip (upper_string "medium")
  /\ rstrip (upper_string "low") <> rstrip (upper_string "high")
  /\ rstrip (upper_string "medium") <> rstrip (upper_string "high").
Proof. repeat split; vm_compute; discriminate. Qed.

(** A collation that compares the bytes. *)
Definition binary : collation := Collation (fun s => s) binary_tiers_apart.

(** The weights of the stock collations on ASCII texts: the case of a
    letter and the spaces at the end of a text do not count. *)
Definition general_ci : collation :=
  Collation (fun s => rstrip (upper_string s)) general_ci_tiers_apart.

(** ** The rating query (step 3 of [upload_and_process]) *)

(** A value read from a [DECIMAL(_, 2)] column. *)
Definition col2 (u : Z) : decimal := Dec u 2.

(** [CASE risk_factor WHEN 'low' THEN 1.0 WHEN 'medium' THEN 1.5
     WHEN 'high' THEN 2.0 ELSE 1.0 END] *)
Definition risk_multiplier (co : collation) (risk_factor : string) : decimal :=
  if collate co risk_factor "low" then Dec 10 1
  else if collate co risk_factor "medium" then Dec 15 1
  else if collate co risk_factor "high" then Dec 20 1
  else Dec 10 1.

(** [base_premium + (vehicle_damage * CASE ... END)
     - (base_premium * (discount / 100))] *)
Definition calculated_premium (co : collation) (r : Policy.row) : decimal :=
  dec_sub
    (dec_add (col2 (Policy.base_premium r))
             (dec_mul (col2 (Policy.vehicle_damage r))
                      (risk_multiplier co (Policy.risk_factor r))))
    (dec_mul (col2 (Policy.base_premium r))
             (dec_div_int (col2 (Policy.discount r)) 100)).

(** [risk_factor IN ('low', 'medium')] *)
Definition risk_in_low_medium (co : collation) (risk_factor : string) : bool :=
  collate co risk_factor "low" || collate co risk_factor "medium".

(** [CASE WHEN (...) < 10000 AND risk_factor IN ('low', 'medium')
     THEN 'Granted' ELSE 'Rejected' END] *)
Definition insurance_granted (co : collation) (r : Policy.row) : string :=
  if dec_ltb (calculated_premium co r) (Dec 10000 0)
     && risk_in_low_medium co (Policy.risk_factor r)
  then "Granted" else "Rejected".


(** One row of the result of the [SELECT], with the names step 4 gives to
    its columns. A numeric field holds the decimal that step 4 hands to
    [float]. *)
Module RatedPolicy.
Record t := Make {
  policy_id : string;
  policy_type : string;
  base_premium : decimal;
  vehicle_damage : decimal;
  risk_factor : string;
  discount : decimal;
  calculated_premium : decimal;
  insurance_granted : string
}.
End RatedPolicy.

Definition rate (co : collation) (r : Policy.row) : RatedPolicy.t :=
  RatedPolicy.Make
    (Policy.policy_id r) (Policy.policy_type r)
    (col2 (Policy.base_premium r)) (col2 (Policy.vehicle_damage r))
    (Policy.risk_factor r) (col2 (Policy.discount r))
    (calculated_premium co r) (insurance_granted co r).

(** ** Request documents and exceptions *)

(** A parsed JSON value, as [json.loads] and [request.get_json] return it.
    [JNull] is Python's [None]; the members of a [JObj] are the items of
    the dict, in order, each key once. *)
#[warnings="-register-all"] Inductive json :=
| JNull
| JBool (b : bool)
| JNum (d : decimal)
| JStr (s : string)
| JArr (items : list json)
| JObj (members : list (string * json)).

Inductive exn :=
| KeyError (key : string)
| TypeError
| AttributeError
| JSONDecodeError
| IntegrityError        (* a NULL for a NOT NULL column *)
| DataError             (* too long, out of range or ill-formed for the column *)
| ProgrammingError      (* a statement the server cannot parse or type *)
| NoSuchKey             (* the bucket has no object under the key *)
| ParamValidationError. (* the key is no acceptable object key *)

Inductive result (A : Type) :=
| Ok (a : A)
| Raise (e : exn).
Arguments Ok {A} a.
Arguments Raise {A} e.

Definition rbind {A B} (r : result A) (k : A -> result B) : result B :=
  match r with
  | Ok a => k a
  | Raise e => Raise e
  end.

Notation "x <~ r ;; k" := (rbind r (fun x => k))
  (at level 62, r at next level, right associativity).

Fixpoint assoc (k : string) (members : list (string * json)) : option json :=
  match members with
  | [] => None
  | (k', v) :: rest => if String.eqb k k' then Some v else assoc k rest
  end.

(** [v[k]] for a string [k]. *)
Definition getitem (v : json) (k : string) : result json :=
  match v with
  | JObj members =>
      match assoc k members with
      | Some x => Ok x
      | None => Raise (KeyError k)
      end
  | _ => Raise TypeError
  end.

(** [v.get(k)]. *)
Definition dict_get (v : json) (k : string) : result json :=
  match v with
  | JObj members =>
      match assoc k members with
      | Some x => Ok x
      | None => Ok JNull
      end
  | _ => Raise AttributeError
  end.

(** The elements a [for] loop over [v] visits: the items of a list, the
    keys of a dict, the characters of a string. *)
Definition iterate (v : json) : result (list json) :=
  match v with
  | JArr items => Ok items
  | JObj members => Ok (map (fun kv => JStr (fst kv)) members)
  | JStr s => Ok (map (fun c => JStr (String c EmptyString)) (String.list_ascii_of_string s))
  | _ => Raise TypeError
  end.

(** The numbers that read as zero: the integer [0], and a float that is
    nearest to the double [0.0], which is one of magnitude at most
    [2^-1075], half the smallest double. *)
Definition is_zero (d : decimal) : bool :=
  Z.abs (unscaled d) * 2 ^ 1075 <=? pow10 (scale d).

(** [not not v]. *)
Definition truthy (v : json) : bool :=
  match v with
  | JNull => false
  | JBool b => b
  | JNum d => negb (is_zero d)
  | JStr s => negb (String.eqb s EmptyString)
  | JArr items => negb (Nat.eqb (length items) 0)
  | JObj members => negb (Nat.eqb (length members) 0)
  end.

Definition is_str (k : string) (v : json) : bool :=
  match v with
  | JStr s => String.eqb s k
  | _ => false
  end.

Definition is_substring (k s : string) : bool :=
  match String.index 0 k s with
  | Some _ => true
  | None => false
  end.

(** [k in v] for a string [k]. *)
Definition contains (v : json) (k : string) : result bool :=
  match v with
  | JObj members =>
      Ok (match assoc k members with Some _ => true | None => false end)
  | JArr items => Ok (existsb (is_str k) items)
  | JStr s => Ok (is_substring k s)
  | _ => Raise TypeError
  end.

(** ** The state of the process, and [fetch_from_s3] *)

(** The state a request runs in: whether each client was built when the
    module was loaded ([None] in the source when its constructor raised),
    the objects of the S3 bucket and of the Azure container, what each
    store answers to a write of a body under a key ([None] when it takes
    it, the exception it raises otherwise), and the tables. *)
Record world := World {
  s3_client : bool;
  blob_service_client : bool;
  s3_objects : gmap string string;
  blob_objects : gmap string string;
  put_object_raises : string -> string -> option exn;
  upload_blob_raises : string -> string -> option exn;
  tables : database
}.

Definition with_tables (w : world) (db : database) : world :=
  World (s3_client w) (blob_service_client w) (s3_objects w) (blob_objects w)
        (put_object_raises w) (upload_blob_raises w) db.

(** [s3_client.put_object(Bucket=S3_BUCKET, Key=key, Body=body)], when the
    bucket takes it. *)
Definition put_object (w : world) (key body : string) : world :=
  World (s3_client w) (blob_service_client w) (<[key := body]> (s3_objects w))
        (blob_objects w) (put_object_raises w) (upload_blob_raises w) (tables w).

(** [blob_client.upload_blob(file_data, overwrite=True)], when the
    container takes it. *)
Definition upload_blob (w : world) (key file_data : string) : world :=
  World (s3_client w) (blob_service_client w) (s3_objects w)
        (<[key := file_data]> (blob_objects w))
        (put_object_raises w) (upload_blob_raises w) (tables w).

(** [s3_client.get_object(Bucket=S3_BUCKET, Key=file_key)['Body'].read()] *)
Definition get_object (w : world) (file_key : json) : result (string * string) :=
  match file_key with
  | JStr key =>
      if String.eqb key EmptyString then Raise ParamValidationError
      else match s3_objects w !! key with
           | Some file_data => Ok (key, file_data)
           | None => Raise NoSuchKey
           end
  | _ => Raise ParamValidationError
  end.

(** The body of a reply: [{"message": text}], or [{"error": text + str(e)}]
    for the exception [e] the text ends with, if any. *)
Inductive body :=
| message (text : string)
| error (text : string) (cause : option exn).

Definition response : Type := body * Z.

(** [except Exception as e: return jsonify({"error": str(e)}), 500] *)
Definition internal_error (e : exn) : response := (error EmptyString (Some e), 500).

Definition fetch_from_s3 (w : world) (data : json) : response * world :=
  (* Step 1: Get the file key (name) from Azure's request *)
  match (if truthy data then contains data "file_key" else Ok false) with
  | Raise e => (internal_error e, w)
  | Ok false => ((error "Missing 'file_key' in request" None, 400), w)
  | Ok true =>
      match getitem data "file_key" with
      | Raise e => (internal_error e, w)
      | Ok file_key =>
          (* Step 2: Fetch the file from AWS S3 *)
          if negb (s3_client w)
          then ((error "AWS S3 client not initialized" None, 500), w)
          else
            match get_object w file_key with
            | Raise e =>
                ((error "Error fetching file from AWS S3: " (Some e), 500), w)
            | Ok (key, file_data) =>
                (* Step 3: Upload the file to Azure Blob Storage *)
                if negb (blob_service_client w)
                then ((error "Azure Blob Storage client not initialized" None,
                        500), w)
                else
                  match upload_blob_raises w key file_data with
                  | Some e =>
                      ((error "Error uploading file to Azure Blob Storage: "
                              (Some e), 500), w)
                  | None =>
                      ((message ("File '" ++ key ++ "' migrated from AWS S3 to "
                                 ++ "Azure Blob Storage successfully!"), 200),
                       upload_blob w key file_data)
                  end
            end
      end
  end.

(** ** Statement parameters *)

(** The SQL literal the driver writes for a parameter. A list is written
    as its items between parentheses, so a one-item list reads as that
    item; a dict is refused. *)
Inductive literal :=
| LNull
| LNumber (d : decimal)
| LText (s : string).

Fixpoint escape (v : json) : result literal :=
  match v with
  | JNull => Ok LNull
  | JBool b => Ok (LNumber (Dec (if b then 1 else 0) 0))
  | JNum d => Ok (LNumber d)
  | JStr s => Ok (LText s)
  | JArr (x :: nil) => escape x
  | JArr _ => Raise ProgrammingError
  | JObj _ => Raise TypeError
  end.

(** The characters of a text in UTF-8: a byte from 128 to 191 continues
    the character before it. *)
Definition continues (c : Ascii.ascii) : bool :=
  let n := Ascii.nat_of_ascii c in (128 <=? n)%nat && (n <=? 191)%nat.

Fixpoint char_length (s : string) : nat :=
  match s with
  | EmptyString => O
  | String c rest => ((if continues c then 0 else 1) + char_length rest)%nat
  end.

Fixpoint skip_continuation (s : string) : string :=
  match s with
  | EmptyString => EmptyString
  | String c rest => if continues c then skip_continuation rest else s
  end.

(** [s] without its first [n] characters. *)
Fixpoint drop_chars (n : nat) (s : string) : string :=
  match n, s with
  | O, _ => s
  | S _, EmptyString => EmptyString
  | S k, String _ rest => drop_chars k (skip_continuation rest)
  end.

Fixpoint all_spaces (s : string) : bool :=
  match s with
  | EmptyString => true
  | String c rest => Ascii.eqb c (Ascii.ascii_of_nat 32) && all_spaces rest
  end.

(** What the program leaves to its collaborators: the collation of the
    text columns, how the server reads a text as a number and how it
    rounds a number with more digits than the column has ([None] when it
    refuses the value), how it writes a number into a text column, and how
    the JSON encoder writes a float and a string. *)
Record collaborators := Collaborators {
  column_collation : collation;
  text_to_decimal : nat -> nat -> string -> option Z;
  text_to_int : string -> option Z;
  inexact_to_decimal : nat -> nat -> decimal -> option Z;
  inexact_to_int : decimal -> option Z;
  number_to_text : decimal -> string;
  float_repr : decimal -> string;
  json_string : string -> string
}.

(** ** A database connection

    [pymysql.connect] opens a session with autocommit off. The session
    sees its own statements at once ([working]); other sessions see them
    after [commit]. *)
Record connection := Connection {
  committed : database;
  working : database
}.

Definition connect (db : database) : connection := Connection db db.

(** [connection.close()]: what was not committed is rolled back. *)
Definition close (c : connection) : database := committed c.

(** A block of statements run on a connection: it returns or raises, and
    leaves the connection in some state either way. *)
Definition session (A : Type) : Type := connection -> result A * connection.

Definition ret {A} (a : A) : session A := fun c => (Ok a, c).

Definition bind {A B} (m : session A) (k : A -> session B) : session B :=
  fun c =>
    match m c with
    | (Ok a, c') => k a c'
    | (Raise e, c') => (Raise e, c')
    end.

Definition lift {A} (r : result A) : session A := fun c => (r, c).

Notation "x <- m ;; k" := (bind m (fun x => k))
  (at level 62, m at next level, right associativity).
Notation "m ;;; k" := (bind m (fun _ => k))
  (at level 62, right associativity).

(** [for x in l: body(x)] *)
Fixpoint for_each {A} (l : list A) (body : A -> session unit) : session unit :=
  match l with
  | [] => ret tt
  | x :: rest => body x ;;; for_each rest body
  end.

(** [connection.commit()] *)
Definition commit : session unit :=
  fun c => (Ok tt, Connection (working c) (working c)).

(** [with db_connection() as connection: body]: the connection is closed
    on every way out, and an exception of the body is raised again. *)
Definition db_connection {A} (db : database) (body : session A)
  : result A * database :=
  let (r, c) := body (connect db) in (r, close c).

(** ** Step 3: the rated policies *)

(** [cursor.execute('SELECT ... FROM policy'); cursor.fetchall()]: every
    row of the table, in the order of the table. *)
Definition select_rated (co : collation) : session (list RatedPolicy.t) :=
  fun c => (Ok (map (rate co) (policy (working c))), c).

Section Pipeline.

Context (env : collaborators).

(** ** Storing a literal in a column (strict SQL mode, every column is
    [NOT NULL]) *)

(** [VARCHAR(n)]: a text of at most [n] characters is stored as it is; of
    a longer text the characters past the [n]-th are dropped if they are
    all spaces, and the text is refused otherwise. *)
Definition fit_varchar (n : nat) (s : string) : result string :=
  if (char_length s <=? n)%nat then Ok s
  else if all_spaces (drop_chars n s)
       then Ok (String.substring 0 (String.length s - String.length (drop_chars n s)) s)
       else Raise DataError.

Definition store_varchar (n : nat) (x : literal) : result string :=
  match x with
  | LNull => Raise IntegrityError
  | LText s => fit_varchar n s
  | LNumber d => fit_varchar n (number_to_text env d)
  end.

(** [DECIMAL(p, s)]: a number of at most [s] fractional digits is stored
    as it is and must fit in [p] digits; the rounding of a longer one is
    the server's. *)
Definition store_decimal (p s : nat) (x : literal) : result Z :=
  match x with
  | LNull => Raise IntegrityError
  | LNumber d =>
      if (scale d <=? s)%nat
      then if Z.abs (align s d) <? pow10 p then Ok (align s d)
           else Raise DataError
      else match inexact_to_decimal env p s d with
           | Some u => Ok u
           | None => Raise DataError
           end
  | LText t =>
      match text_to_decimal env p s t with
      | Some u => Ok u
      | None => Raise DataError
      end
  end.

(** [INT]: a whole number is stored as it is and must fit in 32 bits;
    the rounding of any other number is the server's. *)
Definition store_int (x : literal) : result Z :=
  match x with
  | LNull => Raise IntegrityError
  | LNumber d =>
      if Nat.eqb (scale d) 0
      then if (- 2 ^ 31 <=? unscaled d) && (unscaled d <? 2 ^ 31)
           then Ok (unscaled d) else Raise DataError
      else match inexact_to_int env d with
           | Some u => Ok u
           | None => Raise DataError
           end
  | LText t =>
      match text_to_int env t with
      | Some u => Ok u
      | None => Raise DataError
      end
  end.

(** ** The four [INSERT] statements (step 2 of [upload_and_process]) *)

Definition policy_values (a1 a2 a3 a4 a5 a6 a7 : json) : result Policy.row :=
  l1 <~ escape a1 ;; l2 <~ escape a2 ;; l3 <~ escape a3 ;; l4 <~ escape a4 ;;
  l5 <~ escape a5 ;; l6 <~ escape a6 ;; l7 <~ escape a7 ;;
  policy_id <~ store_varchar 50 l1 ;;
  policy_type <~ store_varchar 255 l2 ;;
  base_premium <~ store_decimal 10 2 l3 ;;
  vehicle_damage <~ store_decimal 10 2 l4 ;;
  risk_factor <~ store_varchar 20 l5 ;;
  discount <~ store_decimal 5 2 l6 ;;
  branch_id <~ store_varchar 10 l7 ;;
  Ok (Policy.Row policy_id policy_type base_premium vehicle_damage
                 risk_factor discount branch_id).

Definition customer_values (a1 a2 a3 a4 : json) : result CustomerInfo.row :=
  l1 <~ escape a1 ;; l2 <~ escape a2 ;; l3 <~ escape a3 ;; l4 <~ escape a4 ;;
  policy_id <~ store_varchar 50 l1 ;;
  name <~ store_varchar 255 l2 ;;
  age <~ store_int l3 ;;
  address <~ store_varchar 255 l4 ;;
  Ok (CustomerInfo.Row policy_id name age address).

Definition vehicle_values (a1 a2 a3 a4 a5 : json) : result VehicleInfo.row :=
  l1 <~ escape a1 ;; l2 <~ escape a2 ;; l3 <~ escape a3 ;; l4 <~ escape a4 ;;
  l5 <~ escape a5 ;;
  policy_id <~ store_varchar 50 l1 ;;
  make <~ store_varchar 255 l2 ;;
  model <~ store_varchar 255 l3 ;;
  year <~ store_int l4 ;;
  vehicle_damage <~ store_decimal 10 2 l5 ;;
  Ok (VehicleInfo.Row policy_id make model year vehicle_damage).

Definition coverage_values (a1 a2 a3 a4 a5 : json) : result CoverageInfo.row :=
  l1 <~ escape a1 ;; l2 <~ escape a2 ;; l3 <~ escape a3 ;; l4 <~ escape a4 ;;
  l5 <~ escape a5 ;;
  policy_id <~ store_varchar 50 l1 ;;
  liability <~ store_decimal 10 2 l2 ;;
  collision <~ store_decimal 10 2 l3 ;;
  comprehensive <~ store_decimal 10 2 l4 ;;
  discount <~ store_decimal 5 2 l5 ;;
  Ok (CoverageInfo.Row policy_id liability collision comprehensive discount).

(** [cursor.execute('INSERT INTO t (...) VALUES (...)', params)]: the row
    is appended to the session's view of the table, or the statement
    raises and changes nothing. *)
Definition execute_insert {R} (values : result R)
    (append : R -> database -> database) : session unit :=
  fun c =>
    match values with
    | Ok r => (Ok tt, Connection (committed c) (append r (working c)))
    | Raise e => (Raise e, c)
    end.

Definition into_policy (r : Policy.row) (db : database) : database :=
  Database (policy db ++ [r]) (customer_info db) (vehicle_info db)
           (coverage_info db).

Definition into_customer_info (r : CustomerInfo.row) (db : database) : database :=
  Database (policy db) (customer_info db ++ [r]) (vehicle_info db)
           (coverage_info db).

Definition into_vehicle_info (r : VehicleInfo.row) (db : database) : database :=
  Database (policy db) (customer_info db) (vehicle_info db ++ [r])
           (coverage_info db).

Definition into_coverage_info (r : CoverageInfo.row) (db : database) : database :=
  Database (policy db) (customer_info db) (vehicle_info db)
           (coverage_info db ++ [r]).

(** [v[k1][k2]] *)
Definition getitem2 (v : json) (k1 k2 : string) : result json :=
  x <~ getitem v k1 ;; getitem x k2.

(** The body of [for policy in branch['policies']]: the parameters of each
    statement are read from left to right, then the statement is run. *)
Definition insert_policy (branch_id policy : json) : session unit :=
  (* Insert into policy table *)
  a1 <- lift (getitem policy "policy_id") ;;
  a2 <- lift (getitem policy "policy_type") ;;
  a3 <- lift (getitem policy "base_premium") ;;
  a4 <- lift (getitem2 policy "vehicle_info" "vehicle_damage") ;;
  a5 <- lift (getitem policy "risk_factor") ;;
  a6 <- lift (getitem2 policy "coverage_info" "discount") ;;
  execute_insert (policy_values a1 a2 a3 a4 a5 a6 branch_id) into_policy ;;;
  (* Insert into customer_info table *)
  b1 <- lift (getitem policy "policy_id") ;;
  b2 <- lift (getitem2 policy "customer_info" "name") ;;
  b3 <- lift (getitem2 policy "customer_info" "age") ;;
  b4 <- lift (getitem2 policy "customer_info" "address") ;;
  execute_insert (customer_values b1 b2 b3 b4) into_customer_info ;;;
  (* Insert into vehicle_info table *)
  c1 <- lift (getitem policy "policy_id") ;;
  c2 <- lift (getitem2 policy "vehicle_info" "make") ;;
  c3 <- lift (getitem2 policy "vehicle_info" "model") ;;
  c4 <- lift (getitem2 policy "vehicle_info" "year") ;;
  c5 <- lift (getitem2 policy "vehicle_info" "vehicle_damage") ;;
  execute_insert (vehicle_values c1 c2 c3 c4 c5) into_vehicle_info ;;;
  (* Insert into coverage_info table *)
  d1 <- lift (getitem policy "policy_id") ;;
  d2 <- lift (getitem2 policy "coverage_info" "liability") ;;
  d3 <- lift (getitem2 policy "coverage_info" "collision") ;;
  d4 <- lift (getitem2 policy "coverage_info" "comprehensive") ;;
  d5 <- lift (getitem2 policy "coverage_info" "discount") ;;
  execute_insert (coverage_values d1 d2 d3 d4 d5) into_coverage_info.

(** The body of [for branch in data['branches']]. *)
Definition insert_branch (branch : json) : session unit :=
  branch_id <- lift (dict_get branch "branch_id") ;;
  policies <- lift (l <~ getitem branch "policies" ;; iterate l) ;;
  for_each policies (insert_policy branch_id).

(** Step 2: every insert of the batch, then one [commit]. *)
Definition insert_document (data : json) : session unit :=
  branches <- lift (l <~ getitem data "branches" ;; iterate l) ;;
  for_each branches insert_branch ;;;
  commit.

(** ** Step 4: [json.dumps(policies, indent=2)]

    A list of dicts of strings and floats, written with an indent of two
    spaces; the empty list is written as two brackets. *)

Definition nl : string := String (Ascii.ascii_of_nat 10) EmptyString.
Definition dquote : string := String (Ascii.ascii_of_nat 34) EmptyString.

Definition member (key value : string) : string :=
  "    " ++ dquote ++ key ++ dquote ++ ": " ++ value.

Definition dumps_policy (p : RatedPolicy.t) : string :=
  "{" ++ nl
  ++ String.concat ("," ++ nl)
       [ member "policy_id" (json_string env (RatedPolicy.policy_id p));
         member "policy_type" (json_string env (RatedPolicy.policy_type p));
         member "base_premium" (float_repr env (RatedPolicy.base_premium p));
         member "vehicle_damage" (float_repr env (RatedPolicy.vehicle_damage p));
         member "risk_factor" (json_string env (RatedPolicy.risk_factor p));
         member "discount" (float_repr env (RatedPolicy.discount p));
         member "calculated_premium"
                (float_repr env (RatedPolicy.calculated_premium p));
         member "insurance_granted"
                (json_string env (RatedPolicy.insurance_granted p)) ]
  ++ nl ++ "  }".

Definition json_dumps (policies : list RatedPolicy.t) : string :=
  match policies with
  | [] => "[]"
  | _ => "[" ++ nl ++ "  "
         ++ String.concat ("," ++ nl ++ "  ") (map dumps_policy policies)
         ++ nl ++ "]"
  end.

(** ** [upload_and_process] *)

(** What step 1 finds in the request: no data, a text that [json.loads]
    refuses, or a parsed document. *)
Inductive submitted :=
| NoData
| InvalidJSON
| Parsed (data : json).

Definition upload_and_process (w : world) (req : submitted) : response * world :=
  match req with
  | NoData => ((error "No data provided" None, 400), w)
  | InvalidJSON => ((error "Invalid JSON: " (Some JSONDecodeError), 400), w)
  | Parsed data =>
      (* Step 2: Database Connection and Insertion *)
      match db_connection (tables w) (insert_document data) with
      | (Raise e, db) => (internal_error e, with_tables w db)
      | (Ok _, db) =>
          (* Step 3: Fetch and Process Data *)
          match db_connection db (select_rated (column_collation env)) with
          | (Raise e, db') => (internal_error e, with_tables w db')
          | (Ok policies, db') =>
              (* Step 4: Prepare JSON data for AWS S3 *)
              let json_data := json_dumps policies in
              (* Step 5: Upload Processed Data to AWS S3 *)
              if s3_client w
              then
                match put_object_raises w "insurance_data.json" json_data with
                | Some s3_error =>
                    ((error "Error uploading data to AWS S3: " (Some s3_error),
                      500), with_tables w db')
                | None =>
                    ((message ("Data successfully stored in MySQL and then "
                               ++ "uploaded to AWS S3!"), 200),
                     put_object (with_tables w db') "insurance_data.json"
                                json_data)
                end
              else ((error "AWS S3 client not initialized." None, 500),
                    with_tables w db')
          end
      end
  end.

(** ** The decomposer and the batch write, as the design names them

    [decompose] is the mapping from a document to its rows that
    [insert_document] performs statement by statement: the same lookups
    and conversions in the same order, without the connection.
    [write_batch] adds the rows of a batch to the tables. The lemma
    [insert_document_refines] relates the two to the code. *)

Definition rows : Type :=
  (Policy.row * CustomerInfo.row * VehicleInfo.row * CoverageInfo.row)%type.

Definition decompose_policy (branch_id policy : json) : result rows :=
  a1 <~ getitem policy "policy_id" ;;
  a2 <~ getitem policy "policy_type" ;;
  a3 <~ getitem policy "base_premium" ;;
  a4 <~ getitem2 policy "vehicle_info" "vehicle_damage" ;;
  a5 <~ getitem policy "risk_factor" ;;
  a6 <~ getitem2 policy "coverage_info" "discount" ;;
  r1 <~ policy_values a1 a2 a3 a4 a5 a6 branch_id ;;
  b1 <~ getitem policy "policy_id" ;;
  b2 <~ getitem2 policy "customer_info" "name" ;;
  b3 <~ getitem2 policy "customer_info" "age" ;;
  b4 <~ getitem2 policy "customer_info" "address" ;;
  r2 <~ customer_values b1 b2 b3 b4 ;;
  c1 <~ getitem policy "policy_id" ;;
  c2 <~ getitem2 policy "vehicle_info" "make" ;;
  c3 <~ getitem2 policy "vehicle_info" "model" ;;
  c4 <~ getitem2 policy "vehicle_info" "year" ;;
  c5 <~ getitem2 policy "vehicle_info" "vehicle_damage" ;;
  r3 <~ vehicle_values c1 c2 c3 c4 c5 ;;
  d1 <~ getitem policy "policy_id" ;;
  d2 <~ getitem2 policy "coverage_info" "liability" ;;
  d3 <~ getitem2 policy "coverage_info" "collision" ;;
  d4 <~ getitem2 policy "coverage_info" "comprehensive" ;;
  d5 <~ getitem2 policy "coverage_info" "discount" ;;
  r4 <~ coverage_values d1 d2 d3 d4 d5 ;;
  Ok (r1, r2, r3, r4).

(** The rows of every element of [l], in order; the first failure wins. *)
Fixpoint collect {A} (f : A -> result (list rows)) (l : list A)
  : result (list rows) :=
  match l with
  | [] => Ok []
  | x :: rest => r <~ f x ;; rs <~ collect f rest ;; Ok (r ++ rs)%list%list
  end.

Definition decompose_branch (branch : json) : result (list rows) :=
  branch_id <~ dict_get branch "branch_id" ;;
  policies <~ (l <~ getitem branch "policies" ;; iterate l) ;;
  collect (fun policy => r <~ decompose_policy branch_id policy ;; Ok [r])
          policies.

Definition decompose (data : json) : result (list rows) :=
  branches <~ (l <~ getitem data "branches" ;; iterate l) ;;
  collect decompose_branch branches.

Definition row_policy (r : rows) : Policy.row := fst (fst (fst r)).
Definition row_customer (r : rows) : CustomerInfo.row := snd (fst (fst r)).
Definition row_vehicle (r : rows) : VehicleInfo.row := snd (fst r).
Definition row_coverage (r : rows) : CoverageInfo.row := snd r.

Definition add_rows (db : database) (r : rows) : database :=
  let '(r1, r2, r3, r4) := r in
  into_coverage_info r4
    (into_vehicle_info r3 (into_customer_info r2 (into_policy r1 db))).

Definition write_batch (db : database) (batch : list rows) : database :=
  fold_left add_rows batch db.

(** A block of statements refines a pure result when, from every
    connection, it raises what the result raises, commits nothing, and on
    success has added the rows of the result to the session's view. *)
Definition refines (m : session unit) (pure : result (list rows)) : Prop :=
  forall c, exists c',
    m c = (match pure with Ok _ => Ok tt | Raise e => Raise e end, c')
    /\ committed c' = committed c
    /\ forall batch, pure = Ok batch -> working c' = write_batch (working c) batch.

(** What a column holds for a statement parameter. *)
Definition stored_text (n : nat) (a : json) : result string :=
  l <~ escape a ;; store_varchar n l.

Definition stored_decimal (p s : nat) (a : json) : result Z :=
  l <~ escape a ;; store_decimal p s l.

Definition stored_int (a : json) : result Z :=
  l <~ escape a ;; store_int l.

(** ** Documents of the expected shape *)

(** The fields [insert_policy] reads from a policy object. *)
Definition required_fields : list (list string) :=
  [ ["policy_id"]; ["policy_type"]; ["base_premium"]; ["risk_factor"];
    ["customer_info"; "name"]; ["customer_info"; "age"];
    ["customer_info"; "address"];
    ["vehicle_info"; "make"]; ["vehicle_info"; "model"];
    ["vehicle_info"; "year"]; ["vehicle_info"; "vehicle_damage"];
    ["coverage_info"; "liability"]; ["coverage_info"; "collision"];
    ["coverage_info"; "comprehensive"]; ["coverage_info"; "discount"] ].

Fixpoint lookup_path (v : json) (path : list string) : result json :=
  match path with
  | [] => Ok v
  | k :: rest => x <~ getitem v k ;; lookup_path x rest
  end.

Definition fails {A} (r : result A) : Prop := exists e, r = Raise e.

(** The policies the loops visit in a branch. *)
Definition policies_of (branch : json) : result (list json) :=
  l <~ getitem branch "policies" ;; iterate l.

(** A list of branches with a defect that stops the batch: a branch
    without [policies]; a policy without one of the required fields; a
    policy in a branch whose [branch_id] is absent or null. *)
Inductive defective (branches : list json) : Prop :=
| no_policies branch :
    In branch branches -> fails (getitem branch "policies") ->
    defective branches
| no_field branch policies policy path :
    In branch branches -> policies_of branch = Ok policies ->
    In policy policies -> In path required_fields ->
    fails (lookup_path policy path) ->
    defective branches
| no_branch_id branch policies policy :
    In branch branches -> policies_of branch = Ok policies ->
    In policy policies -> dict_get branch "branch_id" = Ok JNull ->
    defective branches.

(** A text that fits [VARCHAR(n)]. *)
Definition is_text (n : nat) (r : result json) : bool :=
  match r with
  | Ok (JStr s) => (char_length s <=? n)%nat
  | _ => false
  end.

(** A number that [DECIMAL(p, s)] holds as it is. *)
Definition is_decimal (p s : nat) (r : result json) : bool :=
  match r with
  | Ok (JNum d) => (scale d <=? s)%nat && (Z.abs (align s d) <? pow10 p)
  | _ => false
  end.

(** A whole number that [INT] holds. *)
Definition is_int (r : result json) : bool :=
  match r with
  | Ok (JNum d) =>
      Nat.eqb (scale d) 0 && (- 2 ^ 31 <=? unscaled d) && (unscaled d <? 2 ^ 31)
  | _ => false
  end.

Definition valid_policy (policy : json) : bool :=
  is_text 50 (getitem policy "policy_id")
  && is_text 255 (getitem policy "policy_type")
  && is_decimal 10 2 (getitem policy "base_premium")
  && is_text 20 (getitem policy "risk_factor")
  && is_text 255 (getitem2 policy "customer_info" "name")
  && is_int (getitem2 policy "customer_info" "age")
  && is_text 255 (getitem2 policy "customer_info" "address")
  && is_text 255 (getitem2 policy "vehicle_info" "make")
  && is_text 255 (getitem2 policy "vehicle_info" "model")
  && is_int (getitem2 policy "vehicle_info" "year")
  && is_decimal 10 2 (getitem2 policy "vehicle_info" "vehicle_damage")
  && is_decimal 10 2 (getitem2 policy "coverage_info" "liability")
  && is_decimal 10 2 (getitem2 policy "coverage_info" "collision")
  && is_decimal 10 2 (getitem2 policy "coverage_info" "comprehensive")
  && is_decimal 5 2 (getitem2 policy "coverage_info" "discount").

Definition valid_branch (branch : json) : bool :=
  is_text 10 (getitem branch "branch_id")
  && match getitem branch "policies" with
     | Ok (JArr policies) => forallb valid_policy policies
     | _ => false
     end.

Definition valid_document (data : json) : bool :=
  match getitem data "branches" with
  | Ok (JArr branches) => forallb valid_branch branches
  | _ => false
  end.

(** The policy objects of a document, branch by branch. *)
Definition submitted_in (data policy : json) : Prop :=
  exists branches branch policies,
    getitem data "branches" = Ok (JArr branches) /\ In branch branches
    /\ getitem branch "policies" = Ok (JArr policies) /\ In policy policies.

(** ** Sample collaborators and data *)

Definition zero_digit : Ascii.ascii := Ascii.ascii_of_nat 48.

Fixpoint strip_zeros (s : string) : string :=
  match s with
  | EmptyString => EmptyString
  | String c rest =>
      let r := strip_zeros rest in
      if String.eqb r EmptyString && Ascii.eqb c zero_digit then EmptyString
      else String c r
  end.

Fixpoint zeros (n : nat) : string :=
  match n with
  | O => EmptyString
  | S k => String zero_digit (zeros k)
  end.

(** A decimal in positional notation, with the fractional digits [frac]
    gives to it. *)
Definition positional (frac : string -> string) (d : decimal) : string :=
  let u := Z.abs (unscaled d) in
  let f := pretty (u mod pow10 (scale d)) in
  (if unscaled d <? 0 then "-" else EmptyString)
  ++ pretty (u / pow10 (scale d))
  ++ frac (strip_zeros (zeros (scale d - String.length f) ++ f)).

(** Collaborators for the examples: a server with the stock collation
    that takes no text for a number and rounds ties away from zero, and
    an encoder for plain strings and for floats that are short decimals. *)
Definition sample_env : collaborators :=
  Collaborators
    general_ci
    (fun _ _ _ => None)
    (fun _ => None)
    (fun p s d =>
       let u := dec_round s d in if Z.abs u <? pow10 p then Some u else None)
    (fun d =>
       let u := dec_round 0 d in
       if (- 2 ^ 31 <=? u) && (u <? 2 ^ 31) then Some u else None)
    (positional (fun f => if String.eqb f EmptyString then EmptyString else "." ++ f))
    (positional (fun f => "." ++ (if String.eqb f EmptyString then "0" else f)))
    (fun s => dquote ++ s ++ dquote).

(** A store that takes every write. *)
Definition accepts : string -> string -> option exn := fun _ _ => None.

Definition no_tables : database := Database [] [] [] [].

Definition sample_world (db : database) : world :=
  World true true ∅ ∅ accepts accepts db.

(** A policy object of the expected shape; [extra] is put in front of its
    members. *)
Definition sample_policy (extra : list (string * json)) (policy_id risk : string)
    (base_premium vehicle_damage discount : Z) : json :=
  JObj (extra ++
    [ ("policy_id", JStr policy_id); ("policy_type", JStr "auto");
      ("base_premium", JNum (Dec base_premium 2)); ("risk_factor", JStr risk);
      ("customer_info",
        JObj [("name", JStr "Ann"); ("age", JNum (Dec 41 0));
              ("address", JStr "1 Main St")]);
      ("vehicle_info",
        JObj [("make", JStr "Saab"); ("model", JStr "900");
              ("year", JNum (Dec 1990 0));
              ("vehicle_damage", JNum (Dec vehicle_damage 2))]);
      ("coverage_info",
        JObj [("liability", JNum (Dec 100 0)); ("collision", JNum (Dec 50 0));
              ("comprehensive", JNum (Dec 25 0));
              ("discount", JNum (Dec discount 0))]) ])%list.

Definition sample_document (policies : list json) : json :=
  JObj [("branches", JArr [JObj [("branch_id", JStr "B1");
                                 ("policies", JArr policies)]])].

(** [v] without its member [k]. *)
Definition without (k : string) (v : json) : json :=
  match v with
  | JObj members =>
      JObj (filter (fun kv => negb (String.eqb (fst kv) k)) members)
  | _ => v
  end.

(** The three policies of the worked examples. *)
Definition policy_1 : json := sample_policy [] "P1" "low" 100000 200000 10.
Definition policy_2 : json := sample_policy [] "P2" "medium" 900000 300000 0.
Definition policy_3 : json := sample_policy [] "P3" "high" 50000 10000 50.

Definition three_policies : json :=
  sample_document [policy_1; policy_2; policy_3].

(** The same batch, its third policy without a risk factor. *)
Definition third_policy_broken : json :=
  sample_document [policy_1; policy_2; without "risk_factor" policy_3].

(** A policy that carries a discount of 10 of its own and the discount
    [coverage] under [coverage_info]. *)
Definition two_discounts (coverage : Z) : json :=
  sample_policy [("discount", JNum (Dec 10 0))] "P1" "low" 100000 200000 coverage.

(** A branch with neither [branch_id] nor policies. *)
Definition anonymous_branch : json :=
  JObj [("branches", JArr [JObj [("policies", JArr [])]])].

Definition no_branches : json := JObj [("branches", JArr [])].

(** Tables that hold one policy of an earlier batch. *)
Definition one_policy_stored : database :=
  Database [Policy.Row "P0" "auto" 100000 200000 "low" 1000 "B0"] [] [] [].

(** A bucket that holds one object. *)
Definition one_object : world :=
  World true true {[ "report.csv" := "a,b" ]} {[ "report.csv" := "old" ]}
        accepts accepts no_tables.

Definition copy_request (key : string) : json := JObj [("file_key", JStr key)].

(** ** The module as published

    The Azure connection string and the container name are blank in the
    source, and [BlobServiceClient.from_connection_string] raises on a
    blank string: the module is loaded with [blob_service_client = None]. *)
Definition AZURE_STORAGE_CONNECTION_STRING : string := EmptyString.
Definition AZURE_CONTAINER_NAME : string := EmptyString.

(** [BlobServiceClient.from_connection_string(conn_str)] returns a client
    or raises; it raises on a blank string, and on another string does
    what [built] says. *)
Definition from_connection_string (conn_str : string) (built : bool) : bool :=
  if String.eqb conn_str EmptyString then false else built.

(** The state [w], the Azure client being the one the published constants
    give. *)
Definition as_published (w : world) : world :=
  World (s3_client w)
        (from_connection_string AZURE_STORAGE_CONNECTION_STRING
           (blob_service_client w))
        (s3_objects w) (blob_objects w) (put_object_raises w)
        (upload_blob_raises w) (tables w).

(** ** The walk over a document *)

(** The policy objects the loops of [insert_document] visit, each with the
    [branch_id] read for its branch, in the order of the visit. *)
Fixpoint visit (branches : list json) : result (list (json * json)) :=
  match branches with
  | [] => Ok []
  | branch :: rest =>
      branch_id <~ dict_get branch "branch_id" ;;
      policies <~ policies_of branch ;;
      more <~ visit rest ;;
      Ok (map (pair branch_id) policies ++ more)%list
  end.

Definition submitted_policies (data : json) : result (list (json * json)) :=
  branches <~ (l <~ getitem data "branches" ;; iterate l) ;; visit branches.

(** The batch of the worked examples with its second policy broken. *)
Definition second_policy_broken : json :=
  JObj [("branch_id", JStr "B1");
        ("policies", JArr [policy_1; without "risk_factor" policy_2; policy_3])].

(** A state without the S3 client. *)
Definition no_s3_client : world := World false true ∅ ∅ accepts accepts no_tables.

(** A stored policy with a base premium of 1000. *)
Definition sample_row (risk : string) (vehicle_damage discount : Z) : Policy.row :=
  Policy.Row "P9" "auto" 100000 vehicle_damage risk discount "B1".

(** A document whose [branches] is an object. *)
Definition branches_as_object : json :=
  JObj [("branches", JObj [("north", JNull)])].

(** The batch of the worked examples, the discount of its third policy
    given as null. *)
Definition third_discount_null : json :=
  sample_document
    [policy_1; policy_2;
     JObj [ ("policy_id", JStr "P3"); ("policy_type", JStr "auto");
            ("base_premium", JNum (Dec 50000 2)); ("risk_factor", JStr "high");
            ("customer_info",
              JObj [("name", JStr "Ann"); ("age", JNum (Dec 41 0));
                    ("address", JStr "1 Main St")]);
            ("vehicle_info",
              JObj [("make", JStr "Saab"); ("model", JStr "900");
                    ("year", JNum (Dec 1990 0));
                    ("vehicle_damage", JNum (Dec 10000 2))]);
            ("coverage_info",
              JObj [("liability", JNum (Dec 100 0)); ("collision", JNum (Dec 50 0));
                    ("comprehensive", JNum (Dec 25 0)); ("discount", JNull)]) ]].
(** * Properties *)

(** ** Decimal arithmetic *)

Ltac eval_pow10 :=
  repeat match goal with
         | |- context [pow10 ?n] =>
             let v := eval vm_compute in (pow10 n) in change (pow10 n) with v
         end.

Lemma round_div_exact (k d : Z) : 0 < d -> round_div (k * d) d = k.
Proof.
  intros Hd. unfold round_div.
  assert (Hq : (2 * Z.abs (k * d) + d) / (2 * d) = Z.abs k).
  { symmetry. apply Z.div_unique with (r := d); [lia|].
    rewrite Z.abs_mul, (Z.abs_eq d) by lia. ring. }
  rewrite Hq, Z.sgn_mul, (Z.sgn_pos d) by lia.
  rewrite Z.mul_1_r, Z.mul_comm. apply Z.abs_sgn.
Qed.

Lemma discount_over_100 (u : Z) :
  dec_div_int (col2 u) 100 = Dec (u * 100) 6.
Proof.
  unfold dec_div_int, col2, div_precision_increment; simpl.
  f_equal. change (pow10 4) with (100 * 100).
  rewrite Z.mul_assoc. apply round_div_exact. lia.
Qed.

Lemma risk_multiplier_cases (co : collation) (rf : string) :
  risk_multiplier co rf = Dec 10 1 \/ risk_multiplier co rf = Dec 15 1
  \/ risk_multiplier co rf = Dec 20 1.
Proof.
  unfold risk_multiplier.
  repeat match goal with |- context [collate ?c ?a ?b] => destruct (collate c a b) end;
    auto.
Qed.

(** ** Comparison in a collation *)

Lemma collate_refl (co : collation) (s : string) : collate co s s = true.
Proof. unfold collate. apply String.eqb_refl. Qed.

Lemma collate_tiers (co : collation) :
  collate co "medium" "low" = false /\ collate co "high" "low" = false
  /\ collate co "high" "medium" = false.
Proof.
  destruct (tiers_apart co) as (H1 & H2 & H3). unfold collate.
  repeat split; apply String.eqb_neq; congruence.
Qed.

Lemma risk_multiplier_tiers (co : collation) :
  risk_multiplier co "low" = Dec 10 1 /\ risk_multiplier co "medium" = Dec 15 1
  /\ risk_multiplier co "high" = Dec 20 1.
Proof.
  destruct (collate_tiers co) as (H1 & H2 & H3). unfold risk_multiplier.
  rewrite !collate_refl, H1, H2, H3. auto.
Qed.

Lemma risk_multiplier_value (co : collation) (rf : string) :
  (dec_value (risk_multiplier co rf)
   == if collate co rf "low" then 1
      else if collate co rf "medium" then 3 # 2
      else if collate co rf "high" then 2
      else 1)%Q.
Proof.
  unfold risk_multiplier.
  destruct (collate co rf "low"); [reflexivity|].
  destruct (collate co rf "medium"); [reflexivity|].
  destruct (collate co rf "high"); reflexivity.
Qed.

Lemma calculated_premium_value (co : collation) (r : Policy.row) :
  (dec_value (calculated_premium co r) ==
     dec_value (col2 (Policy.base_premium r))
     + dec_value (col2 (Policy.vehicle_damage r))
       * dec_value (risk_multiplier co (Policy.risk_factor r))
     - dec_value (col2 (Policy.base_premium r))
       * dec_value (col2 (Policy.discount r)) / 100)%Q.
Proof.
  destruct r as [pid pty bp vd rf disc br]; cbn [Policy.risk_factor
    Policy.base_premium Policy.vehicle_damage Policy.discount].
  unfold calculated_premium;
    cbn [Policy.risk_factor Policy.base_premium Policy.vehicle_damage
         Policy.discount].
  rewrite discount_over_100.
  destruct (risk_multiplier_cases co rf) as [-> | [-> | ->]];
    unfold dec_value, dec_sub, dec_add, dec_mul, align, col2;
    cbn [unscaled scale Nat.max Nat.sub Nat.add]; eval_pow10;
    unfold Qeq; simpl; lia.
Qed.

(** C1, as amended. The premium computed for a policy row is
    [base_premium + vehicle_damage * m - base_premium * discount / 100].
    The multiplier [m] is 1.0 when the risk factor equals low in the
    collation of the column, 1.5 when it equals medium, 2.0 when it equals
    high, and 1.0 when it equals none of the three; the texts low, medium
    and high themselves get 1.0, 1.5 and 2.0 in every collation. *)
Theorem calculated_premium_formula (co : collation) (r : Policy.row) :
  let m := dec_value (risk_multiplier co (Policy.risk_factor r)) in
  (dec_value (calculated_premium co r) ==
     dec_value (col2 (Policy.base_premium r))
     + dec_value (col2 (Policy.vehicle_damage r)) * m
     - dec_value (col2 (Policy.base_premium r))
       * dec_value (col2 (Policy.discount r)) / 100)%Q
  /\ (m == if collate co (Policy.risk_factor r) "low" then 1
           else if collate co (Policy.risk_factor r) "medium" then 3 # 2
           else if collate co (Policy.risk_factor r) "high" then 2
           else 1)%Q
  /\ (Policy.risk_factor r = "low" -> m == 1)%Q
  /\ (Policy.risk_factor r = "medium" -> m == 3 # 2)%Q
  /\ (Policy.risk_factor r = "high" -> m == 2)%Q.
Proof.
  cbv zeta. destruct (risk_multiplier_tiers co) as (Hl & Hm & Hh).
  split; [apply calculated_premium_value|].
  split; [apply risk_multiplier_value|].
  repeat split; intros ->; [rewrite Hl | rewrite Hm | rewrite Hh]; reflexivity.
Qed.

Lemma pow10_pos (n : nat) : 0 < pow10 n.
Proof. unfold pow10. apply Z.pow_pos_nonneg; lia. Qed.

Lemma pow10_add (a b : nat) : pow10 (a + b) = pow10 a * pow10 b.
Proof. unfold pow10. rewrite Nat2Z.inj_add, Z.pow_add_r; lia. Qed.

Lemma pow10_align (s k : nat) : (k <= s)%nat -> pow10 (s - k) * pow10 k = pow10 s.
Proof. intros H. rewrite <- pow10_add. f_equal. lia. Qed.

Lemma dec_ltb_lt (a b : decimal) :
  dec_ltb a b = true <-> (dec_value a < dec_value b)%Q.
Proof.
  destruct a as [ua sa], b as [ub sb].
  unfold dec_ltb, dec_value, align, Qlt; cbn [unscaled scale Qnum Qden].
  rewrite Z.ltb_lt, !Z2Pos.id by apply pow10_pos.
  set (s := Nat.max sa sb).
  pose proof (pow10_align s sa ltac:(lia)) as Ha.
  pose proof (pow10_align s sb ltac:(lia)) as Hb.
  pose proof (pow10_pos sa) as Pa. pose proof (pow10_pos sb) as Pb.
  pose proof (pow10_pos s) as Ps.
  rewrite (Z.mul_lt_mono_pos_r (pow10 sa * pow10 sb)) by lia.
  replace (ua * pow10 (s - sa) * (pow10 sa * pow10 sb))
    with (ua * pow10 sb * pow10 s) by (rewrite <- Ha; ring).
  replace (ub * pow10 (s - sb) * (pow10 sa * pow10 sb))
    with (ub * pow10 sa * pow10 s) by (rewrite <- Hb; ring).
  symmetry. apply Z.mul_lt_mono_pos_r. lia.
Qed.

Lemma risk_in_low_medium_spec (co : collation) (rf : string) :
  risk_in_low_medium co rf = true
  <-> collate co rf "low" = true \/ collate co rf "medium" = true.
Proof. unfold risk_in_low_medium. apply orb_true_iff. Qed.

Lemma risk_in_low_medium_high (co : collation) (rf : string) :
  collate co rf "high" = true -> risk_in_low_medium co rf = false.
Proof.
  destruct (collate_tiers co) as (_ & H2 & H3).
  unfold risk_in_low_medium, collate in *. rewrite String.eqb_eq.
  intros ->. rewrite H2, H3. reflexivity.
Qed.

(** C2, as amended. A policy is granted exactly when its calculated
    premium is strictly below 10000 and its risk factor equals low or
    medium in the collation of the column; every other policy is rejected,
    and a risk factor that equals high, the text high among them, is
    rejected whatever the premium. *)
Theorem insurance_granted_iff (co : collation) (r : Policy.row) :
  let eligible :=
    (dec_value (calculated_premium co r) < 10000)%Q
    /\ (collate co (Policy.risk_factor r) "low" = true
        \/ collate co (Policy.risk_factor r) "medium" = true) in
  (insurance_granted co r = "Granted" <-> eligible)
  /\ (insurance_granted co r = "Rejected" <-> ~ eligible)
  /\ (collate co (Policy.risk_factor r) "high" = true ->
      insurance_granted co r = "Rejected")
  /\ (Policy.risk_factor r = "high" -> insurance_granted co r = "Rejected").
Proof.
  cbv zeta.
  assert (Hhigh : collate co (Policy.risk_factor r) "high" = true ->
                  insurance_granted co r = "Rejected").
  { intros H. unfold insurance_granted.
    rewrite (risk_in_low_medium_high _ _ H), andb_false_r. reflexivity. }
  unfold insurance_granted in *.
  pose proof (dec_ltb_lt (calculated_premium co r) (Dec 10000 0)) as Hlt.
  change (dec_value (Dec 10000 0)) with (10000 : Q) in Hlt.
  pose proof (risk_in_low_medium_spec co (Policy.risk_factor r)) as Hin.
  split; [| split; [| split; [exact Hhigh|]]].
  - destruct (dec_ltb (calculated_premium co r) (Dec 10000 0));
      destruct (risk_in_low_medium co (Policy.risk_factor r)); cbn [andb];
      split; try discriminate; try tauto; intuition discriminate.
  - destruct (dec_ltb (calculated_premium co r) (Dec 10000 0));
      destruct (risk_in_low_medium co (Policy.risk_factor r)); cbn [andb];
      split; try discriminate; try tauto; intuition discriminate.
  - intros H. apply Hhigh. rewrite H. apply collate_refl.
Qed.

(** ** The inserts refine the decomposer *)

Lemma write_batch_app (db : database) (a b : list rows) :
  write_batch db (a ++ b)%list = write_batch (write_batch db a) b.
Proof. apply fold_left_app. Qed.

Lemma refines_lift {A} (r : result A) (k : A -> session unit)
    (pure : A -> result (list rows)) :
  (forall x, refines (k x) (pure x)) ->
  refines (x <- lift r ;; k x) (x <~ r ;; pure x).
Proof.
  intros Hk c. unfold bind, lift. destruct r as [a | e]; cbn.
  - apply Hk.
  - exists c. repeat split; intros; discriminate.
Qed.

Lemma refines_seq (m k : session unit) (p q : result (list rows)) :
  refines m p -> refines k q ->
  refines (m ;;; k) (r <~ p ;; rs <~ q ;; Ok (r ++ rs)%list).
Proof.
  intros Hm Hk c. unfold bind.
  destruct (Hm c) as (c1 & -> & Hc1 & Hw1).
  destruct p as [a | e]; cbn.
  - destruct (Hk c1) as (c2 & -> & Hc2 & Hw2).
    exists c2. destruct q as [b | e]; cbn.
    + repeat split; [congruence|]. intros batch [= <-].
      rewrite write_batch_app, <- (Hw1 a eq_refl). auto.
    + repeat split; [congruence | discriminate].
  - exists c1. repeat split; [assumption | discriminate].
Qed.

Lemma refines_for_each {A} (body : A -> session unit)
    (f : A -> result (list rows)) (l : list A) :
  (forall x, refines (body x) (f x)) ->
  refines (for_each l body) (collect f l).
Proof.
  intros Hb. induction l as [| x rest IH]; cbn [for_each collect].
  - intros c. exists c. repeat split. intros batch [= <-]. reflexivity.
  - apply refines_seq; auto.
Qed.

Lemma insert_policy_refines (branch_id policy : json) :
  refines (insert_policy branch_id policy)
          (r <~ decompose_policy branch_id policy ;; Ok [r]).
Proof.
  intros c. unfold insert_policy, decompose_policy, bind, lift, execute_insert.
  repeat match goal with
  | |- context [getitem ?v ?k] => destruct (getitem v k); cbn [rbind]
  | |- context [getitem2 ?v ?k1 ?k2] => destruct (getitem2 v k1 k2); cbn [rbind]
  | |- context [policy_values ?a ?b ?c ?d ?e ?f ?g] =>
      destruct (policy_values a b c d e f g); cbn [rbind]
  | |- context [customer_values ?a ?b ?c ?d] =>
      destruct (customer_values a b c d); cbn [rbind]
  | |- context [vehicle_values ?a ?b ?c ?d ?e] =>
      destruct (vehicle_values a b c d e); cbn [rbind]
  | |- context [coverage_values ?a ?b ?c ?d ?e] =>
      destruct (coverage_values a b c d e); cbn [rbind]
  end;
  eexists; (split; [reflexivity|]); cbn [committed working];
    (split; [reflexivity|]); intros batch [= <-]; reflexivity.
Qed.

Lemma insert_branch_refines (branch : json) :
  refines (insert_branch branch) (decompose_branch branch).
Proof.
  unfold insert_branch, decompose_branch.
  apply refines_lift; intros branch_id.
  apply refines_lift; intros policies.
  apply refines_for_each. intros p. apply insert_policy_refines.
Qed.

(** The batch write of [upload_and_process]: the rows of the document are
    added, all of them, when the decomposer accepts the document, and the
    tables are left as they were when it raises. *)
Lemma insert_document_refines (db : database) (data : json) :
  db_connection db (insert_document data)
  = match decompose data with
    | Ok batch => (Ok tt, write_batch db batch)
    | Raise e => (Raise e, db)
    end.
Proof.
  unfold db_connection, insert_document, decompose, bind, lift.
  destruct (l <~ getitem data "branches" ;; iterate l) as [branches | e];
    cbn [rbind]; [| reflexivity].
  destruct (refines_for_each insert_branch decompose_branch branches
              insert_branch_refines (connect db)) as (c' & -> & Hc & Hw).
  destruct (collect decompose_branch branches) as [batch | e].
  - unfold commit, close; cbn. rewrite (Hw batch eq_refl). reflexivity.
  - unfold close. rewrite Hc. reflexivity.
Qed.

(** ** The values of the four statements, column by column *)

Ltac split_result :=
  repeat match goal with
         | |- context [rbind ?r _] =>
             let E := fresh "E" in destruct r eqn:E; cbn [rbind]
         end.

Lemma policy_values_columns (a1 a2 a3 a4 a5 a6 a7 : json) (r : Policy.row) :
  policy_values a1 a2 a3 a4 a5 a6 a7 = Ok r <->
  stored_text 50 a1 = Ok (Policy.policy_id r)
  /\ stored_text 255 a2 = Ok (Policy.policy_type r)
  /\ stored_decimal 10 2 a3 = Ok (Policy.base_premium r)
  /\ stored_decimal 10 2 a4 = Ok (Policy.vehicle_damage r)
  /\ stored_text 20 a5 = Ok (Policy.risk_factor r)
  /\ stored_decimal 5 2 a6 = Ok (Policy.discount r)
  /\ stored_text 10 a7 = Ok (Policy.branch_id r).
Proof.
  destruct r. unfold policy_values, stored_text, stored_decimal. cbn.
  split_result; split; try discriminate; try tauto;
    try (intros [= <- <- <- <- <- <- <-]; tauto);
    try (intros ([= <-] & [= <-] & [= <-] & [= <-] & [= <-] & [= <-] & [= <-]);
         reflexivity);
    intros (? & ? & ? & ? & ? & ? & ?); discriminate.
Qed.

Lemma customer_values_columns (a1 a2 a3 a4 : json) (r : CustomerInfo.row) :
  customer_values a1 a2 a3 a4 = Ok r <->
  stored_text 50 a1 = Ok (CustomerInfo.policy_id r)
  /\ stored_text 255 a2 = Ok (CustomerInfo.name r)
  /\ stored_int a3 = Ok (CustomerInfo.age r)
  /\ stored_text 255 a4 = Ok (CustomerInfo.address r).
Proof.
  destruct r. unfold customer_values, stored_text, stored_int. cbn.
  split_result; split; try discriminate; try tauto;
    try (intros [= <- <- <- <-]; tauto);
    try (intros ([= <-] & [= <-] & [= <-] & [= <-]); reflexivity);
    intros (? & ? & ? & ?); discriminate.
Qed.

Lemma vehicle_values_columns (a1 a2 a3 a4 a5 : json) (r : VehicleInfo.row) :
  vehicle_values a1 a2 a3 a4 a5 = Ok r <->
  stored_text 50 a1 = Ok (VehicleInfo.policy_id r)
  /\ stored_text 255 a2 = Ok (VehicleInfo.make r)
  /\ stored_text 255 a3 = Ok (VehicleInfo.model r)
  /\ stored_int a4 = Ok (VehicleInfo.year r)
  /\ stored_decimal 10 2 a5 = Ok (VehicleInfo.vehicle_damage r).
Proof.
  destruct r. unfold vehicle_values, stored_text, stored_decimal, stored_int. cbn.
  split_result; split; try discriminate; try tauto;
    try (intros [= <- <- <- <- <-]; tauto);
    try (intros ([= <-] & [= <-] & [= <-] & [= <-] & [= <-]); reflexivity);
    intros (? & ? & ? & ? & ?); discriminate.
Qed.

Lemma coverage_values_columns (a1 a2 a3 a4 a5 : json) (r : CoverageInfo.row) :
  coverage_values a1 a2 a3 a4 a5 = Ok r <->
  stored_text 50 a1 = Ok (CoverageInfo.policy_id r)
  /\ stored_decimal 10 2 a2 = Ok (CoverageInfo.liability r)
  /\ stored_decimal 10 2 a3 = Ok (CoverageInfo.collision r)
  /\ stored_decimal 10 2 a4 = Ok (CoverageInfo.comprehensive r)
  /\ stored_decimal 5 2 a5 = Ok (CoverageInfo.discount r).
Proof.
  destruct r. unfold coverage_values, stored_text, stored_decimal. cbn.
  split_result; split; try discriminate; try tauto;
    try (intros [= <- <- <- <- <-]; tauto);
    try (intros ([= <-] & [= <-] & [= <-] & [= <-] & [= <-]); reflexivity);
    intros (? & ? & ? & ? & ?); discriminate.
Qed.

(** ** What the decomposer accepts *)

Lemma rbind_Ok {A} (r : result A) : (x <~ r ;; Ok x) = r.
Proof. destruct r; reflexivity. Qed.

Lemma lookup_path_1 (v : json) (k : string) : lookup_path v [k] = getitem v k.
Proof. cbn. apply rbind_Ok. Qed.

Lemma lookup_path_2 (v : json) (k1 k2 : string) :
  lookup_path v [k1; k2] = getitem2 v k1 k2.
Proof.
  cbn. unfold getitem2. destruct (getitem v k1); cbn; [apply rbind_Ok | reflexivity].
Qed.

Lemma decompose_policy_inv (branch_id policy : json) r1 r2 r3 r4 :
  decompose_policy branch_id policy = Ok (r1, r2, r3, r4) ->
  exists a1 a2 a4 a6,
    getitem policy "policy_id" = Ok a1
    /\ getitem policy "policy_type" = Ok a2
    /\ getitem2 policy "vehicle_info" "vehicle_damage" = Ok a4
    /\ getitem2 policy "coverage_info" "discount" = Ok a6
    /\ stored_text 50 a1 = Ok (Policy.policy_id r1)
    /\ stored_text 255 a2 = Ok (Policy.policy_type r1)
    /\ stored_decimal 10 2 a4 = Ok (Policy.vehicle_damage r1)
    /\ stored_decimal 5 2 a6 = Ok (Policy.discount r1)
    /\ stored_text 10 branch_id = Ok (Policy.branch_id r1)
    /\ stored_text 50 a1 = Ok (CustomerInfo.policy_id r2)
    /\ stored_text 50 a1 = Ok (VehicleInfo.policy_id r3)
    /\ stored_decimal 10 2 a4 = Ok (VehicleInfo.vehicle_damage r3)
    /\ stored_text 50 a1 = Ok (CoverageInfo.policy_id r4)
    /\ stored_decimal 5 2 a6 = Ok (CoverageInfo.discount r4).
Proof.
  unfold decompose_policy. split_result; try discriminate.
  intros [= <- <- <- <-].
  repeat match goal with
         | H : policy_values _ _ _ _ _ _ _ = Ok _ |- _ =>
             apply policy_values_columns in H
         | H : customer_values _ _ _ _ = Ok _ |- _ =>
             apply customer_values_columns in H
         | H : vehicle_values _ _ _ _ _ = Ok _ |- _ =>
             apply vehicle_values_columns in H
         | H : coverage_values _ _ _ _ _ = Ok _ |- _ =>
             apply coverage_values_columns in H
         end.
  do 4 eexists. intuition eauto.
Qed.

Lemma decompose_policy_fields (branch_id policy : json) (r : rows) (path : list string) :
  decompose_policy branch_id policy = Ok r ->
  In path required_fields ->
  exists x, lookup_path policy path = Ok x.
Proof.
  unfold decompose_policy. split_result; try discriminate. intros _ Hin.
  unfold required_fields in Hin. cbn [In] in Hin.
  repeat (destruct Hin as [<- | Hin];
          [rewrite ?lookup_path_1, ?lookup_path_2; eauto|]).
  contradiction.
Qed.

Lemma stored_text_null (n : nat) : stored_text n JNull = Raise IntegrityError.
Proof. reflexivity. Qed.

Lemma decompose_policy_branch_id (policy : json) (r : rows) :
  decompose_policy JNull policy = Ok r -> False.
Proof.
  destruct r as [[[r1 r2] r3] r4]. intros H.
  apply decompose_policy_inv in H.
  destruct H as (a1 & a2 & a4 & a6 & H). decompose [and] H.
  match goal with H : stored_text 10 JNull = Ok _ |- _ => discriminate H end.
Qed.

(** ** Lists of rows *)

Lemma collect_ok_inv {A} (f : A -> result (list rows)) (l : list A) batch :
  collect f l = Ok batch ->
  forall x, In x l -> exists r, f x = Ok r /\ incl r batch.
Proof.
  revert batch. induction l as [| y rest IH]; intros batch H x Hin; [destruct Hin|].
  cbn [collect] in H.
  destruct (f y) as [r |] eqn:Ey; cbn [rbind] in H; [| discriminate].
  destruct (collect f rest) as [rs |] eqn:Er; cbn [rbind] in H; [| discriminate].
  injection H as <-. destruct Hin as [<- | Hin].
  - exists r. split; [assumption | apply incl_appl, incl_refl].
  - destruct (IH rs eq_refl x Hin) as (r' & Hr' & Hincl).
    exists r'. split; [assumption | apply incl_appr, Hincl].
Qed.

Lemma collect_ok {A} (f : A -> result (list rows)) (l : list A) :
  (forall x, In x l -> exists r, f x = Ok r) ->
  exists batch, collect f l = Ok batch.
Proof.
  induction l as [| y rest IH]; intros H; cbn [collect]; [eauto|].
  destruct (H y (or_introl eq_refl)) as (r & ->).
  destruct IH as (rs & ->); [intros x Hx; apply H; right; exact Hx|].
  cbn. eauto.
Qed.

Lemma collect_Forall {A} (P : rows -> Prop) (f : A -> result (list rows))
    (l : list A) batch :
  (forall x r, In x l -> f x = Ok r -> Forall P r) ->
  collect f l = Ok batch -> Forall P batch.
Proof.
  revert batch. induction l as [| y rest IH]; intros batch Hf H; cbn [collect] in H.
  - injection H as <-. constructor.
  - destruct (f y) as [r |] eqn:Ey; cbn [rbind] in H; [| discriminate].
    destruct (collect f rest) as [rs |] eqn:Er; cbn [rbind] in H; [| discriminate].
    injection H as <-. apply Forall_app. split.
    + apply (Hf y); [left; reflexivity | assumption].
    + apply IH; [| reflexivity]. intros x r' Hx. apply Hf. right. exact Hx.
Qed.

Lemma write_batch_tables (db : database) (batch : list rows) :
  policy (write_batch db batch) = (policy db ++ map row_policy batch)%list
  /\ customer_info (write_batch db batch)
     = (customer_info db ++ map row_customer batch)%list
  /\ vehicle_info (write_batch db batch)
     = (vehicle_info db ++ map row_vehicle batch)%list
  /\ coverage_info (write_batch db batch)
     = (coverage_info db ++ map row_coverage batch)%list.
Proof.
  revert db. induction batch as [| [[[r1 r2] r3] r4] rest IH]; intros db.
  - cbn. rewrite !app_nil_r. auto.
  - cbn [write_batch fold_left map]. fold (write_batch (add_rows db (r1, r2, r3, r4)) rest).
    destruct (IH (add_rows db (r1, r2, r3, r4))) as (-> & -> & -> & ->).
    cbn. rewrite <- !app_assoc. auto.
Qed.

(** ** The handler, through the decomposer *)

Lemma with_tables_same (w : world) : with_tables w (tables w) = w.
Proof. destruct w; reflexivity. Qed.

Lemma upload_and_process_refines (w : world) (data : json) :
  upload_and_process w (Parsed data)
  = match decompose data with
    | Raise e => (internal_error e, w)
    | Ok batch =>
        let db := write_batch (tables w) batch in
        let json_data :=
          json_dumps (map (rate (column_collation env)) (policy db)) in
        if s3_client w
        then
          match put_object_raises w "insurance_data.json" json_data with
          | Some s3_error =>
              ((error "Error uploading data to AWS S3: " (Some s3_error), 500),
               with_tables w db)
          | None =>
              ((message ("Data successfully stored in MySQL and then "
                         ++ "uploaded to AWS S3!"), 200),
               put_object (with_tables w db) "insurance_data.json" json_data)
          end
        else ((error "AWS S3 client not initialized." None, 500),
              with_tables w db)
    end.
Proof.
  unfold upload_and_process. rewrite insert_document_refines.
  destruct (decompose data) as [batch | e].
  - reflexivity.
  - rewrite with_tables_same. reflexivity.
Qed.

(** C5. The batch write is all or nothing. When an insert of the batch
    raises, the tables are what they were before the request, so a later
    read sees no row of the batch, and the caller gets the exception as an
    error reply with status 500. When no insert raises, every row of the
    batch is in the tables. *)
Theorem batch_write_all_or_nothing (w : world) (data : json) :
  let outcome := db_connection (tables w) (insert_document data) in
  (forall e, fst outcome = Raise e ->
     snd outcome = tables w
     /\ upload_and_process w (Parsed data) = (internal_error e, w))
  /\ (fst outcome = Ok tt ->
      exists batch, decompose data = Ok batch
        /\ snd outcome = write_batch (tables w) batch
        /\ tables (snd (upload_and_process w (Parsed data))) = snd outcome).
Proof.
  cbv zeta. rewrite upload_and_process_refines, insert_document_refines.
  destruct (decompose data) as [batch | e']; cbn [fst snd]; split.
  - discriminate.
  - intros _. exists batch. repeat split. cbv zeta.
    destruct (s3_client w); [| reflexivity].
    destruct (put_object_raises w _ _); reflexivity.
  - intros e [= <-]. split; reflexivity.
  - discriminate.
Qed.

(** C10. After a batch that was written, the new rows of the policy,
    vehicle_info and coverage_info tables go by position: the rows of one
    policy carry the same policy_id, the discount of the policy row is the
    discount of its coverage_info row, and the vehicle_damage of the policy
    row is the vehicle_damage of its vehicle_info row. *)
Theorem stored_copies_agree (db db' : database) (data : json) :
  db_connection db (insert_document data) = (Ok tt, db') ->
  exists ps vs cs,
    policy db' = (policy db ++ ps)%list
    /\ vehicle_info db' = (vehicle_info db ++ vs)%list
    /\ coverage_info db' = (coverage_info db ++ cs)%list
    /\ Forall3 (fun p v c =>
                  Policy.policy_id p = VehicleInfo.policy_id v
                  /\ Policy.policy_id p = CoverageInfo.policy_id c
                  /\ Policy.discount p = CoverageInfo.discount c
                  /\ Policy.vehicle_damage p = VehicleInfo.vehicle_damage v)
               ps vs cs.
Proof.
  rewrite insert_document_refines.
  destruct (decompose data) as [batch |] eqn:Hd; [| discriminate].
  intros [= <-].
  destruct (write_batch_tables db batch) as (Hp & _ & Hv & Hc).
  exists (map row_policy batch), (map row_vehicle batch), (map row_coverage batch).
  repeat (split; [assumption|]).
  assert (Hall : Forall (fun r =>
            Policy.policy_id (row_policy r) = VehicleInfo.policy_id (row_vehicle r)
            /\ Policy.policy_id (row_policy r) = CoverageInfo.policy_id (row_coverage r)
            /\ Policy.discount (row_policy r) = CoverageInfo.discount (row_coverage r)
            /\ Policy.vehicle_damage (row_policy r)
               = VehicleInfo.vehicle_damage (row_vehicle r)) batch).
  { unfold decompose in Hd.
    destruct (l <~ getitem data "branches" ;; iterate l) as [branches |];
      cbn [rbind] in Hd; [| discriminate].
    eapply collect_Forall; [| exact Hd].
    intros branch r _ Hb. unfold decompose_branch in Hb.
    destruct (dict_get branch "branch_id") as [branch_id |]; cbn [rbind] in Hb;
      [| discriminate].
    destruct (l <~ getitem branch "policies" ;; iterate l) as [policies |];
      cbn [rbind] in Hb; [| discriminate].
    eapply collect_Forall; [| exact Hb].
    intros p r' _ Hp'. cbv beta in Hp'.
    destruct (decompose_policy branch_id p) as [[[[r1 r2] r3] r4] |] eqn:E;
      cbn [rbind] in Hp'; [| discriminate].
    injection Hp' as <-. constructor; [| constructor].
    apply decompose_policy_inv in E.
    destruct E as (a1 & a2 & a4 & a6 & E). decompose [and] E.
    unfold row_policy, row_vehicle, row_coverage; cbn [fst snd].
    repeat split; congruence. }
  clear -Hall. induction Hall; cbn [map]; constructor; auto.
Qed.

Lemma decompose_inv (data : json) (batch : list rows) :
  decompose data = Ok batch ->
  exists branches,
    (l <~ getitem data "branches" ;; iterate l) = Ok branches
    /\ forall branch, In branch branches ->
         exists branch_id policies rb,
           dict_get branch "branch_id" = Ok branch_id
           /\ policies_of branch = Ok policies
           /\ incl rb batch
           /\ forall policy, In policy policies ->
                exists r, decompose_policy branch_id policy = Ok r /\ In r rb.
Proof.
  unfold decompose. intros Hd.
  destruct (l <~ getitem data "branches" ;; iterate l) as [branches |];
    cbn [rbind] in Hd; [| discriminate].
  exists branches. split; [reflexivity|]. intros branch Hin.
  destruct (collect_ok_inv _ _ _ Hd branch Hin) as (rb & Hb & Hincl).
  unfold decompose_branch in Hb. unfold policies_of.
  destruct (dict_get branch "branch_id") as [branch_id |]; cbn [rbind] in Hb;
    [| discriminate].
  destruct (l <~ getitem branch "policies" ;; iterate l) as [policies |];
    cbn [rbind] in Hb; [| discriminate].
  exists branch_id, policies, rb. repeat split; [assumption|].
  intros p Hp.
  destruct (collect_ok_inv _ _ _ Hb p Hp) as (rp & Hrp & Hincl').
  cbv beta in Hrp.
  destruct (decompose_policy branch_id p) as [r |]; cbn [rbind] in Hrp;
    [| discriminate].
  injection Hrp as <-. exists r. split; [reflexivity|].
  apply Hincl'. left. reflexivity.
Qed.

Lemma defective_is_refused (data : json) (branches : list json) :
  (l <~ getitem data "branches" ;; iterate l) = Ok branches ->
  defective branches ->
  exists e, decompose data = Raise e.
Proof.
  intros Hb Hdef. destruct (decompose data) as [batch | e] eqn:Hd; [| eauto].
  exfalso. destruct (decompose_inv _ _ Hd) as (branches' & Hb' & Hall).
  rewrite Hb in Hb'. injection Hb' as <-.
  destruct Hdef as [branch Hin [e He] | branch policies policy path Hin Hps Hp Hpath [e He]
                   | branch policies policy Hin Hps Hp Hid].
  - destruct (Hall branch Hin) as (bid & ps & rb & _ & Hps & _).
    unfold policies_of in Hps. rewrite He in Hps. discriminate.
  - destruct (Hall branch Hin) as (bid & ps & rb & _ & Hps' & _ & Hpol).
    rewrite Hps in Hps'. injection Hps' as <-.
    destruct (Hpol policy Hp) as (r & Hr & _).
    destruct (decompose_policy_fields _ _ _ _ Hr Hpath) as (x & Hx).
    rewrite He in Hx. discriminate.
  - destruct (Hall branch Hin) as (bid & ps & rb & Hid' & Hps' & _ & Hpol).
    rewrite Hps in Hps'. injection Hps' as <-.
    rewrite Hid in Hid'. injection Hid' as <-.
    destruct (Hpol policy Hp) as (r & Hr & _).
    exact (decompose_policy_branch_id _ _ Hr).
Qed.

(** C4, as amended. A batch is refused whole, with an error reply and the
    tables, the bucket and the container as they were, when a branch has
    no [policies], when a policy lacks one of the required fields, or when
    a policy sits in a branch whose [branch_id] is absent or null. No field
    of a policy is given a default; [branch_id] alone is read with the
    default [None], which the NOT NULL column then refuses. *)
Theorem missing_field_fails_batch (w : world) (data : json) (branches : list json) :
  (l <~ getitem data "branches" ;; iterate l) = Ok branches ->
  defective branches ->
  exists e, upload_and_process w (Parsed data) = (internal_error e, w).
Proof.
  intros Hb Hdef. destruct (defective_is_refused _ _ Hb Hdef) as (e & He).
  exists e. rewrite upload_and_process_refines, He. reflexivity.
Qed.

Lemma insert_policy_ok (branch_id policy : json) (c c' : connection) :
  insert_policy branch_id policy c = (Ok tt, c') ->
  exists r, decompose_policy branch_id policy = Ok r
            /\ working c' = add_rows (working c) r.
Proof.
  intros H. destruct (insert_policy_refines branch_id policy c) as (c1 & H1 & _ & Hw).
  rewrite H in H1.
  destruct (decompose_policy branch_id policy) as [r |]; cbn [rbind] in *.
  - injection H1 as <-. exists r. split; [reflexivity|].
    apply (Hw [r] eq_refl).
  - discriminate.
Qed.

(** C3, as amended. [insert_policy] fills the discount column of the
    policy row from [coverage_info.discount] of the policy object, and the
    premium formula is evaluated with that stored value. A [discount]
    member of the policy object itself is never read: two policy objects
    that give the same answer for every key other than [discount] are
    inserted alike. *)
Theorem premium_discount_is_coverage_discount (branch_id : json) (c : connection) :
  (forall p p',
     (forall k, k <> "discount" -> getitem p k = getitem p' k) ->
     insert_policy branch_id p c = insert_policy branch_id p' c)
  /\ (forall p c',
        insert_policy branch_id p c = (Ok tt, c') ->
        exists r a coverage_discount,
          policy (working c') = (policy (working c) ++ [r])%list
          /\ getitem2 p "coverage_info" "discount" = Ok a
          /\ stored_decimal 5 2 a = Ok coverage_discount
          /\ forall co,
               (dec_value (calculated_premium co r) ==
                  dec_value (col2 (Policy.base_premium r))
                  + dec_value (col2 (Policy.vehicle_damage r))
                    * dec_value (risk_multiplier co (Policy.risk_factor r))
                  - dec_value (col2 (Policy.base_premium r))
                    * dec_value (col2 coverage_discount) / 100)%Q).
Proof.
  split.
  - intros p p' H. unfold insert_policy, getitem2.
    rewrite !(H "policy_id"), !(H "policy_type"), !(H "base_premium"),
      !(H "risk_factor"), !(H "vehicle_info"), !(H "coverage_info"),
      !(H "customer_info") by discriminate.
    reflexivity.
  - intros p c' H. destruct (insert_policy_ok _ _ _ _ H) as ([[[r1 r2] r3] r4] & Hd & Hw).
    apply decompose_policy_inv in Hd.
    destruct Hd as (a1 & a2 & a4 & a6 & Hd). decompose [and] Hd.
    exists r1, a6, (Policy.discount r1). rewrite Hw. cbn.
    repeat split; try assumption.
    intros co. apply calculated_premium_value.
Qed.

(** ** Valid documents *)

Lemma is_text_ok (n : nat) (r : result json) :
  is_text n r = true ->
  exists s, r = Ok (JStr s) /\ stored_text n (JStr s) = Ok s.
Proof.
  destruct r as [[] |]; try discriminate. cbn. intros H.
  eexists. split; [reflexivity|]. unfold fit_varchar. rewrite H. reflexivity.
Qed.

Lemma is_decimal_ok (p s : nat) (r : result json) :
  is_decimal p s r = true ->
  exists d, r = Ok (JNum d) /\ stored_decimal p s (JNum d) = Ok (align s d)
            /\ (scale d <= s)%nat.
Proof.
  destruct r as [[] |]; try discriminate. cbn.
  rewrite andb_true_iff. intros [Hs Hr].
  eexists. split; [reflexivity|]. rewrite Hs, Hr.
  split; [reflexivity|]. apply Nat.leb_le, Hs.
Qed.

Lemma is_int_ok (r : result json) :
  is_int r = true ->
  exists d, r = Ok (JNum d) /\ stored_int (JNum d) = Ok (unscaled d).
Proof.
  destruct r as [[| | [u s] | | |] |]; try discriminate. cbn.
  rewrite !andb_true_iff. intros [[Hs Hlo] Hhi].
  apply Nat.eqb_eq in Hs. subst s.
  eexists. split; [reflexivity|].
  cbn [scale unscaled Nat.eqb]. rewrite Hlo, Hhi. reflexivity.
Qed.

Lemma valid_policy_decomposes (branch_id p : json) (bid : string) :
  valid_policy p = true ->
  stored_text 10 branch_id = Ok bid ->
  exists r, decompose_policy branch_id p = Ok r.
Proof.
  unfold valid_policy. rewrite !andb_true_iff.
  intros H Hb. decompose [and] H. clear H.
  repeat match goal with
         | H : is_text _ _ = true |- _ =>
             apply is_text_ok in H; destruct H as (? & ? & ?)
         | H : is_decimal _ _ _ = true |- _ =>
             apply is_decimal_ok in H; destruct H as (? & ? & ? & ?)
         | H : is_int _ = true |- _ =>
             apply is_int_ok in H; destruct H as (? & ? & ?)
         end.
  unfold decompose_policy.
  repeat match goal with
         | H : getitem _ _ = Ok _ |- _ => rewrite !H; clear H
         | H : getitem2 _ _ _ = Ok _ |- _ => rewrite !H; clear H
         end.
  cbn [rbind].
  erewrite (proj2 (policy_values_columns _ _ _ _ _ _ _ (Policy.Row _ _ _ _ _ _ _)));
    [| cbn; repeat split; eassumption].
  cbn [rbind].
  erewrite (proj2 (customer_values_columns _ _ _ _ (CustomerInfo.Row _ _ _ _)));
    [| cbn; repeat split; eassumption].
  cbn [rbind].
  erewrite (proj2 (vehicle_values_columns _ _ _ _ _ (VehicleInfo.Row _ _ _ _ _)));
    [| cbn; repeat split; eassumption].
  cbn [rbind].
  erewrite (proj2 (coverage_values_columns _ _ _ _ _ (CoverageInfo.Row _ _ _ _ _)));
    [| cbn; repeat split; eassumption].
  cbn [rbind]. eauto.
Qed.

Lemma getitem_dict_get (v : json) (k : string) (x : json) :
  getitem v k = Ok x -> dict_get v k = Ok x.
Proof.
  destruct v; try discriminate. cbn.
  destruct (assoc k members); [auto | discriminate].
Qed.

Lemma valid_branch_inv (branch : json) :
  valid_branch branch = true ->
  exists bid policies,
    dict_get branch "branch_id" = Ok (JStr bid)
    /\ stored_text 10 (JStr bid) = Ok bid
    /\ getitem branch "policies" = Ok (JArr policies)
    /\ forall p, In p policies -> valid_policy p = true.
Proof.
  unfold valid_branch. rewrite andb_true_iff. intros [Hid Hps].
  apply is_text_ok in Hid. destruct Hid as (bid & Hid & Hst).
  destruct (getitem branch "policies") as [[] |]; try discriminate.
  exists bid, items. repeat split; auto using getitem_dict_get.
  apply forallb_forall. exact Hps.
Qed.

Lemma valid_document_inv (data : json) :
  valid_document data = true ->
  exists branches,
    getitem data "branches" = Ok (JArr branches)
    /\ forall b, In b branches -> valid_branch b = true.
Proof.
  unfold valid_document.
  destruct (getitem data "branches") as [[] |]; try discriminate.
  intros H. exists items. split; [reflexivity|].
  apply forallb_forall. exact H.
Qed.

Lemma valid_document_decomposes (data : json) :
  valid_document data = true -> exists batch, decompose data = Ok batch.
Proof.
  intros H. destruct (valid_document_inv _ H) as (branches & Hb & Hall).
  unfold decompose. rewrite Hb. cbn [rbind iterate].
  apply collect_ok. intros b Hin.
  destruct (valid_branch_inv _ (Hall b Hin)) as (bid & ps & Hid & Hst & Hps & Hpol).
  unfold decompose_branch. rewrite Hid, Hps. cbn [rbind iterate].
  apply collect_ok. intros p Hp.
  destruct (valid_policy_decomposes (JStr bid) p bid (Hpol p Hp) Hst) as (r & ->).
  cbn. eauto.
Qed.

Lemma align_value (s : nat) (d : decimal) :
  (scale d <= s)%nat -> (dec_value (Dec (align s d) s) == dec_value d)%Q.
Proof.
  intros H. destruct d as [u k]. unfold dec_value, align, Qeq.
  cbn [unscaled scale Qnum Qden] in *.
  rewrite !Z2Pos.id by apply pow10_pos.
  rewrite <- (pow10_align s k H). ring.
Qed.

Lemma stored_row_of_valid_policy (branch_id p : json) (r : rows) :
  valid_policy p = true ->
  decompose_policy branch_id p = Ok r ->
  exists d,
    getitem p "policy_id" = Ok (JStr (Policy.policy_id (row_policy r)))
    /\ getitem p "policy_type" = Ok (JStr (Policy.policy_type (row_policy r)))
    /\ getitem2 p "coverage_info" "discount" = Ok (JNum d)
    /\ (dec_value (col2 (Policy.discount (row_policy r))) == dec_value d)%Q.
Proof.
  intros Hv Hd. destruct r as [[[r1 r2] r3] r4].
  apply decompose_policy_inv in Hd.
  destruct Hd as (a1 & a2 & a4 & a6 & Hd). decompose [and] Hd. clear Hd.
  unfold valid_policy in Hv. rewrite !andb_true_iff in Hv.
  decompose [and] Hv. clear Hv.
  repeat match goal with
         | H : is_text _ (getitem p "policy_id") = true |- _ =>
             apply is_text_ok in H; destruct H as (s1 & E1 & S1)
         | H : is_text _ (getitem p "policy_type") = true |- _ =>
             apply is_text_ok in H; destruct H as (s2 & E2 & S2)
         | H : is_decimal _ _ (getitem2 p "coverage_info" "discount") = true |- _ =>
             apply is_decimal_ok in H; destruct H as (d & E3 & S3 & L3)
         end.
  exists d. unfold row_policy; cbn [fst].
  assert (a1 = JStr s1) by congruence. assert (a2 = JStr s2) by congruence.
  assert (a6 = JNum d) by congruence. subst a1 a2 a6.
  assert (Policy.policy_id r1 = s1) by congruence.
  assert (Policy.policy_type r1 = s2) by congruence.
  assert (Hdisc : Policy.discount r1 = align 2 d) by congruence.
  subst s1 s2. repeat split; try assumption.
  unfold col2. rewrite Hdisc. apply align_value. assumption.
Qed.

(** ** The text of the published document *)

Lemma append_nil_r (s : string) : s ++ EmptyString = s.
Proof.
  induction s as [| ch t IH]; [reflexivity | exact (f_equal (String ch) IH)].
Qed.

Lemma append_assoc (a b c : string) : (a ++ b) ++ c = a ++ b ++ c.
Proof.
  induction a as [| ch t IH]; [reflexivity | exact (f_equal (String ch) IH)].
Qed.

Lemma concat_In (sep x : string) (l : list string) :
  In x l -> exists pre post, String.concat sep l = pre ++ x ++ post.
Proof.
  induction l as [| y rest IH]; [intros []|].
  intros [-> | Hin].
  - exists EmptyString. destruct rest as [| z rest]; cbn [String.concat].
    + exists EmptyString. symmetry. exact (append_nil_r x).
    + exists (sep ++ String.concat sep (z :: rest)). reflexivity.
  - destruct (IH Hin) as (pre & post & Heq).
    destruct rest as [| z rest]; [destruct Hin|].
    cbn [String.concat] in *. rewrite Heq.
    exists (y ++ sep ++ pre), post. rewrite !append_assoc. reflexivity.
Qed.

Lemma dumps_policy_text (o : RatedPolicy.t) :
  exists pre mid1 mid2 post,
    dumps_policy o
    = pre
      ++ (dquote ++ "policy_id" ++ dquote ++ ": "
          ++ json_string env (RatedPolicy.policy_id o))
      ++ mid1
      ++ (dquote ++ "policy_type" ++ dquote ++ ": "
          ++ json_string env (RatedPolicy.policy_type o))
      ++ mid2
      ++ (dquote ++ "discount" ++ dquote ++ ": "
          ++ float_repr env (RatedPolicy.discount o))
      ++ post.
Proof.
  exists ("{" ++ nl ++ "    "), ("," ++ nl ++ "    "),
    ("," ++ nl ++ member "base_premium" (float_repr env (RatedPolicy.base_premium o))
     ++ "," ++ nl
     ++ member "vehicle_damage" (float_repr env (RatedPolicy.vehicle_damage o))
     ++ "," ++ nl
     ++ member "risk_factor" (json_string env (RatedPolicy.risk_factor o))
     ++ "," ++ nl ++ "    "),
    ("," ++ nl
     ++ member "calculated_premium"
          (float_repr env (RatedPolicy.calculated_premium o))
     ++ "," ++ nl
     ++ member "insurance_granted"
          (json_string env (RatedPolicy.insurance_granted o))
     ++ nl ++ "  }").
  unfold dumps_policy, member. cbn [String.concat].
  rewrite !append_assoc. reflexivity.
Qed.

Lemma json_dumps_text (out : list RatedPolicy.t) (o : RatedPolicy.t) :
  In o out ->
  exists pre mid1 mid2 post,
    json_dumps out
    = pre
      ++ (dquote ++ "policy_id" ++ dquote ++ ": "
          ++ json_string env (RatedPolicy.policy_id o))
      ++ mid1
      ++ (dquote ++ "policy_type" ++ dquote ++ ": "
          ++ json_string env (RatedPolicy.policy_type o))
      ++ mid2
      ++ (dquote ++ "discount" ++ dquote ++ ": "
          ++ float_repr env (RatedPolicy.discount o))
      ++ post.
Proof.
  intros Hin.
  destruct (concat_In ("," ++ nl ++ "  ") (dumps_policy o) (map dumps_policy out)
              (in_map _ _ _ Hin)) as (pre & post & Hc).
  destruct (dumps_policy_text o) as (p1 & m1 & m2 & p2 & Ho).
  destruct out as [| x rest]; [destruct Hin|].
  unfold json_dumps. rewrite Hc, Ho.
  exists ("[" ++ nl ++ "  " ++ pre ++ p1), m1, m2, (p2 ++ post ++ nl ++ "]").
  rewrite !append_assoc. reflexivity.
Qed.

(** C6. A document of the expected shape, each value of which fits its
    column, is accepted and stored. The rated policies of the table then
    have, for every policy object submitted, an entry with the policy_id
    and the policy_type of the object as they were submitted and a
    discount of the value submitted under coverage_info. The reply has
    status 200 exactly when the S3 client is at hand and the bucket takes
    the document; the object published is then the encoding of those rated
    policies, a text in which every entry is written with its policy_id,
    its policy_type and its discount. *)
Theorem valid_batch_round_trip (w : world) (data : json) :
  valid_document data = true ->
  let resp := fst (upload_and_process w (Parsed data)) in
  let w' := snd (upload_and_process w (Parsed data)) in
  let out := map (rate (column_collation env)) (policy (tables w')) in
  (forall p, submitted_in data p ->
     exists o d,
       In o out
       /\ getitem p "policy_id" = Ok (JStr (RatedPolicy.policy_id o))
       /\ getitem p "policy_type" = Ok (JStr (RatedPolicy.policy_type o))
       /\ getitem2 p "coverage_info" "discount" = Ok (JNum d)
       /\ (dec_value (RatedPolicy.discount o) == dec_value d)%Q)
  /\ (snd resp = 200
      <-> s3_client w = true
          /\ put_object_raises w "insurance_data.json" (json_dumps out) = None)
  /\ (snd resp = 200 ->
      s3_objects w' !! "insurance_data.json" = Some (json_dumps out)
      /\ forall o, In o out ->
           exists pre mid1 mid2 post,
             json_dumps out
             = pre
               ++ (dquote ++ "policy_id" ++ dquote ++ ": "
                   ++ json_string env (RatedPolicy.policy_id o))
               ++ mid1
               ++ (dquote ++ "policy_type" ++ dquote ++ ": "
                   ++ json_string env (RatedPolicy.policy_type o))
               ++ mid2
               ++ (dquote ++ "discount" ++ dquote ++ ": "
                   ++ float_repr env (RatedPolicy.discount o))
               ++ post).
Proof.
  intros Hv. cbv zeta.
  destruct (valid_document_decomposes _ Hv) as (batch & Hd).
  assert (Ht : tables (snd (upload_and_process w (Parsed data)))
               = write_batch (tables w) batch).
  { rewrite upload_and_process_refines, Hd. cbv zeta.
    destruct (s3_client w); [| reflexivity].
    destruct (put_object_raises w _ _); reflexivity. }
  rewrite Ht. split; [| split].
  - intros p (branches & branch & policies & Hb & Hin & Hps & Hp).
    destruct (valid_document_inv _ Hv) as (branches' & Hb' & Hall).
    rewrite Hb in Hb'. injection Hb' as <-.
    destruct (valid_branch_inv _ (Hall branch Hin)) as (bid & ps & _ & _ & Hps' & Hpol).
    rewrite Hps in Hps'. injection Hps' as <-.
    destruct (decompose_inv _ _ Hd) as (bs & Hbs & Hrows).
    rewrite Hb in Hbs. cbn [rbind iterate] in Hbs. injection Hbs as <-.
    destruct (Hrows branch Hin) as (branch_id & ps' & rb & _ & Hps'' & Hincl & Hrow).
    unfold policies_of in Hps''. rewrite Hps in Hps''.
    cbn [rbind iterate] in Hps''. injection Hps'' as <-.
    destruct (Hrow p Hp) as (r & Hr & Hrb).
    destruct (stored_row_of_valid_policy _ _ _ (Hpol p Hp) Hr) as (d & H1 & H2 & H3 & H4).
    exists (rate (column_collation env) (row_policy r)), d.
    repeat split; try assumption.
    apply in_map.
    destruct (write_batch_tables (tables w) batch) as (-> & _).
    apply in_or_app. right. apply in_map. apply Hincl, Hrb.
  - rewrite upload_and_process_refines, Hd. cbv zeta.
    destruct (s3_client w); cbn [fst snd].
    + destruct (put_object_raises w _ _); cbn [fst snd];
        split; try discriminate; auto; intros [_ ?]; discriminate.
    + split; [discriminate | intros [? _]; discriminate].
  - rewrite upload_and_process_refines, Hd. cbv zeta.
    destruct (s3_client w); cbn [fst snd]; [| discriminate].
    destruct (put_object_raises w _ _); cbn [fst snd]; [discriminate|].
    intros _. split.
    + unfold put_object; cbn [s3_objects]. apply lookup_insert_eq.
    + intros o Ho. apply json_dumps_text. exact Ho.
Qed.

(** C7, as amended. For a document whose [branches] is the empty list no
    row is inserted. The reply has status 200 exactly when the S3 client
    is at hand and the bucket takes the document, and the object published
    is then the encoding of the policies that were in the table before,
    rated; it is the empty array when the policy table was empty. *)
Theorem empty_branches_republish_the_table (w : world) (data : json) :
  getitem data "branches" = Ok (JArr []) ->
  let resp := fst (upload_and_process w (Parsed data)) in
  let w' := snd (upload_and_process w (Parsed data)) in
  let out := map (rate (column_collation env)) (policy (tables w)) in
  tables w' = tables w
  /\ (snd resp = 200
      <-> s3_client w = true
          /\ put_object_raises w "insurance_data.json" (json_dumps out) = None)
  /\ (snd resp = 200 ->
      s3_objects w' !! "insurance_data.json" = Some (json_dumps out))
  /\ (snd resp = 200 -> policy (tables w) = [] ->
      s3_objects w' !! "insurance_data.json" = Some "[]").
Proof.
  intros H. cbv zeta. rewrite upload_and_process_refines. unfold decompose.
  rewrite H. cbn [rbind iterate collect write_batch fold_left]. cbv zeta.
  rewrite with_tables_same.
  destruct (s3_client w); cbn [fst snd].
  - destruct (put_object_raises w "insurance_data.json"
                (json_dumps (map (rate (column_collation env)) (policy (tables w)))))
      eqn:Hput; cbn [fst snd].
    + repeat split; try discriminate. intros [_ ?]; discriminate.
    + repeat split; auto.
      * intros _. unfold put_object; cbn [s3_objects]. apply lookup_insert_eq.
      * intros _ Hnil. unfold put_object; cbn [s3_objects].
        rewrite Hnil. apply lookup_insert_eq.
  - repeat split; try discriminate. intros [? _]; discriminate.
Qed.

(** ** The object copier *)

Lemma fetch_from_s3_keyed (w : world) (data : json) (key : string) :
  getitem data "file_key" = Ok (JStr key) ->
  fetch_from_s3 w data
  = if negb (s3_client w)
    then ((error "AWS S3 client not initialized" None, 500), w)
    else
      match get_object w (JStr key) with
      | Raise e => ((error "Error fetching file from AWS S3: " (Some e), 500), w)
      | Ok (key, file_data) =>
          if negb (blob_service_client w)
          then ((error "Azure Blob Storage client not initialized" None, 500), w)
          else
            match upload_blob_raises w key file_data with
            | Some e =>
                ((error "Error uploading file to Azure Blob Storage: " (Some e),
                  500), w)
            | None =>
                ((message ("File '" ++ key ++ "' migrated from AWS S3 to "
                           ++ "Azure Blob Storage successfully!"), 200),
                 upload_blob w key file_data)
            end
      end.
Proof.
  intros H. unfold fetch_from_s3. rewrite H.
  destruct data; try discriminate. cbn in H |- *.
  destruct members as [| m rest]; [discriminate|].
  destruct (assoc "file_key" (m :: rest)); [reflexivity | discriminate].
Qed.

(** C8. A copy request for a key that the bucket does not hold gets an
    error reply with status 500 and leaves the container, and everything
    else, as it was; with the S3 client at hand the reply carries the
    bucket's answer that there is no such key. *)
Theorem copy_of_missing_key_fails (w : world) (data : json) (key : string) :
  getitem data "file_key" = Ok (JStr key) ->
  s3_objects w !! key = None ->
  snd (fetch_from_s3 w data) = w
  /\ (exists text cause, fst (fetch_from_s3 w data) = (error text cause, 500))
  /\ (s3_client w = true -> key <> EmptyString ->
      fst (fetch_from_s3 w data)
      = (error "Error fetching file from AWS S3: " (Some NoSuchKey), 500)).
Proof.
  intros Hk Hnone. rewrite (fetch_from_s3_keyed _ _ _ Hk).
  unfold get_object. rewrite Hnone.
  destruct (s3_client w); cbn [negb]; [| split; [| split]; eauto; discriminate].
  destruct (String.eqb_spec key EmptyString) as [-> | Hne];
    (split; [reflexivity|]); (split; [eauto|]); intros _ Hk'; [contradiction | reflexivity].
Qed.


(** * Further properties of the code *)

(** ** The premium and the decision *)

Lemma calculated_premium_digits (co : collation) (r : Policy.row) :
  calculated_premium co r
  = Dec (Policy.base_premium r * 1000000
         + Policy.vehicle_damage r
           * unscaled (risk_multiplier co (Policy.risk_factor r)) * 100000
         - Policy.base_premium r * Policy.discount r * 100) 8.
Proof.
  unfold calculated_premium. rewrite discount_over_100.
  destruct (risk_multiplier_cases co (Policy.risk_factor r)) as [-> | [-> | ->]];
    unfold dec_sub, dec_add, dec_mul, align, col2;
    cbn [unscaled scale Nat.max Nat.sub Nat.add]; eval_pow10; f_equal; lia.
Qed.

Lemma dec_value_le (s : nat) (u v : Z) :
  u <= v <-> (dec_value (Dec u s) <= dec_value (Dec v s))%Q.
Proof.
  unfold dec_value, Qle; cbn [unscaled scale Qnum Qden].
  rewrite Z2Pos.id by apply pow10_pos.
  pose proof (pow10_pos s). split; [nia | intros; nia].
Qed.

Lemma dec_value_neg (s : nat) (u : Z) :
  u < 0 <-> (dec_value (Dec u s) < 0)%Q.
Proof.
  unfold dec_value, Qlt; cbn [unscaled scale Qnum Qden]. lia.
Qed.

Lemma below_threshold (co : collation) (r : Policy.row) :
  dec_ltb (calculated_premium co r) (Dec 10000 0) = true
  <-> Policy.base_premium r * 1000000
      + Policy.vehicle_damage r
        * unscaled (risk_multiplier co (Policy.risk_factor r)) * 100000
      - Policy.base_premium r * Policy.discount r * 100 < 1000000000000.
Proof.
  rewrite calculated_premium_digits.
  unfold dec_ltb, align; cbn [unscaled scale Nat.max Nat.sub]. eval_pow10.
  rewrite Z.ltb_lt. lia.
Qed.

Lemma risk_multiplier_other (co : collation) (rf : string) :
  collate co rf "low" = false -> collate co rf "medium" = false ->
  collate co rf "high" = false ->
  risk_multiplier co rf = Dec 10 1 /\ risk_in_low_medium co rf = false.
Proof.
  intros H1 H2 H3. unfold risk_multiplier, risk_in_low_medium.
  rewrite H1, H2, H3. auto.
Qed.

(** X1. A risk factor that equals none of low, medium and high in the
    collation of the column is rated like low (the premium of the same
    policy with risk factor low), and such a policy is never granted,
    however small the premium. *)
Theorem unknown_risk_rated_as_low_and_rejected (co : collation) (r r' : Policy.row) :
  collate co (Policy.risk_factor r) "low" = false ->
  collate co (Policy.risk_factor r) "medium" = false ->
  collate co (Policy.risk_factor r) "high" = false ->
  Policy.risk_factor r' = "low" ->
  Policy.base_premium r' = Policy.base_premium r ->
  Policy.vehicle_damage r' = Policy.vehicle_damage r ->
  Policy.discount r' = Policy.discount r ->
  calculated_premium co r = calculated_premium co r'
  /\ insurance_granted co r = "Rejected".
Proof.
  intros H1 H2 H3 Hl Hb Hv Hd.
  destruct (risk_multiplier_other _ _ H1 H2 H3) as [Hm Hin].
  destruct (risk_multiplier_tiers co) as (Hlow & _). split.
  - rewrite !calculated_premium_digits, Hm, Hl, Hlow, Hb, Hv, Hd. reflexivity.
  - unfold insurance_granted. rewrite Hin, andb_false_r. reflexivity.
Qed.

(** X2. With the other fields equal, a smaller vehicle_damage gives a
    premium that is not larger, and a policy that is granted stays granted
    when its vehicle_damage is lowered. *)
Theorem premium_grows_with_vehicle_damage (co : collation) (r1 r2 : Policy.row) :
  Policy.base_premium r1 = Policy.base_premium r2 ->
  Policy.risk_factor r1 = Policy.risk_factor r2 ->
  Policy.discount r1 = Policy.discount r2 ->
  Policy.vehicle_damage r1 <= Policy.vehicle_damage r2 ->
  (dec_value (calculated_premium co r1) <= dec_value (calculated_premium co r2))%Q
  /\ (insurance_granted co r2 = "Granted" -> insurance_granted co r1 = "Granted").
Proof.
  intros Hb Hr Hd Hv.
  assert (Hm : 0 < unscaled (risk_multiplier co (Policy.risk_factor r2)))
    by (destruct (risk_multiplier_cases co (Policy.risk_factor r2))
          as [-> | [-> | ->]]; cbn; lia).
  split.
  - rewrite !calculated_premium_digits, Hb, Hr, Hd. apply dec_value_le. nia.
  - unfold insurance_granted. rewrite Hr.
    destruct (dec_ltb (calculated_premium co r2) (Dec 10000 0)) eqn:E2;
      [| cbn; discriminate].
    apply below_threshold in E2.
    assert (E1 : dec_ltb (calculated_premium co r1) (Dec 10000 0) = true)
      by (apply below_threshold; rewrite Hb, Hr, Hd; nia).
    rewrite E1. auto.
Qed.

(** X3. For a vehicle_damage that is not negative and the other fields
    equal, the premium of risk factor low is at most that of medium, which
    is at most that of high. *)
Theorem premium_ordered_by_risk (co : collation) (r1 r2 r3 : Policy.row) :
  Policy.risk_factor r1 = "low" ->
  Policy.risk_factor r2 = "medium" ->
  Policy.risk_factor r3 = "high" ->
  Policy.base_premium r1 = Policy.base_premium r2 ->
  Policy.base_premium r2 = Policy.base_premium r3 ->
  Policy.vehicle_damage r1 = Policy.vehicle_damage r2 ->
  Policy.vehicle_damage r2 = Policy.vehicle_damage r3 ->
  Policy.discount r1 = Policy.discount r2 ->
  Policy.discount r2 = Policy.discount r3 ->
  0 <= Policy.vehicle_damage r1 ->
  (dec_value (calculated_premium co r1) <= dec_value (calculated_premium co r2))%Q
  /\ (dec_value (calculated_premium co r2) <= dec_value (calculated_premium co r3))%Q.
Proof.
  intros H1 H2 H3 Hb Hb' Hv Hv' Hd Hd' Hpos.
  destruct (risk_multiplier_tiers co) as (Hl & Hm & Hh).
  rewrite !calculated_premium_digits, H1, H2, H3, Hl, Hm, Hh.
  rewrite Hb, Hb', Hv, Hv', Hd, Hd' in *.
  split; apply dec_value_le; cbn; lia.
Qed.

(** X4. The discount is not checked against 100: a policy with a positive
    base_premium, no vehicle_damage and a discount above 100 has a negative
    premium, and it is granted when its risk factor is low or medium. *)
Theorem discount_above_100_gives_negative_premium (co : collation) (r : Policy.row) :
  0 < Policy.base_premium r ->
  Policy.vehicle_damage r = 0 ->
  10000 < Policy.discount r ->
  (dec_value (calculated_premium co r) < 0)%Q
  /\ (Policy.risk_factor r = "low" \/ Policy.risk_factor r = "medium" ->
      insurance_granted co r = "Granted").
Proof.
  intros Hb Hv Hd.
  assert (Hneg : Policy.base_premium r * 1000000
           + Policy.vehicle_damage r
             * unscaled (risk_multiplier co (Policy.risk_factor r)) * 100000
           - Policy.base_premium r * Policy.discount r * 100 < 0)
    by (rewrite Hv; nia).
  split.
  - rewrite calculated_premium_digits. apply dec_value_neg. exact Hneg.
  - intros Hrf. unfold insurance_granted.
    rewrite (proj2 (below_threshold co r)) by lia.
    assert (Hin : risk_in_low_medium co (Policy.risk_factor r) = true).
    { apply risk_in_low_medium_spec.
      destruct Hrf as [-> | ->]; [left | right]; apply collate_refl. }
    rewrite Hin. reflexivity.
Qed.

(** ** More on the object copier *)

Lemma fetch_from_s3_ok (w : world) (data : json) :
  snd (fst (fetch_from_s3 w data)) = 200 ->
  exists key file_data,
    getitem data "file_key" = Ok (JStr key)
    /\ String.eqb key EmptyString = false
    /\ s3_objects w !! key = Some file_data
    /\ s3_client w = true /\ blob_service_client w = true
    /\ upload_blob_raises w key file_data = None
    /\ fetch_from_s3 w data
       = ((message ("File '" ++ key ++ "' migrated from AWS S3 to "
                    ++ "Azure Blob Storage successfully!"), 200),
          upload_blob w key file_data).
Proof.
  unfold fetch_from_s3.
  destruct (if truthy data then contains data "file_key" else Ok false)
    as [[] |]; try discriminate.
  destruct (getitem data "file_key") as [file_key |]; try discriminate.
  destruct (s3_client w); cbn [negb]; try discriminate.
  unfold get_object.
  destruct file_key; try discriminate.
  destruct (String.eqb s EmptyString) eqn:Hne; try discriminate.
  destruct (s3_objects w !! s) as [file_data |] eqn:E; try discriminate.
  destruct (blob_service_client w); cbn [negb]; try discriminate.
  destruct (upload_blob_raises w s file_data) eqn:Hup; try discriminate.
  intros _. exists s, file_data. repeat split; auto.
Qed.

Lemma fetch_from_s3_not_ok (w : world) (data : json) :
  snd (fst (fetch_from_s3 w data)) <> 200 ->
  snd (fetch_from_s3 w data) = w
  /\ (snd (fst (fetch_from_s3 w data)) = 400
      \/ snd (fst (fetch_from_s3 w data)) = 500).
Proof.
  unfold fetch_from_s3.
  destruct (if truthy data then contains data "file_key" else Ok false)
    as [[] |]; cbn [fst snd]; auto.
  destruct (getitem data "file_key") as [file_key |]; cbn [fst snd]; auto.
  destruct (s3_client w); cbn [negb fst snd]; auto.
  destruct (get_object w file_key) as [[key file_data] |]; cbn [fst snd]; auto.
  destruct (blob_service_client w); cbn [negb fst snd]; auto.
  destruct (upload_blob_raises w key file_data); cbn [fst snd]; auto.
  intros H. contradiction H. reflexivity.
Qed.

(** X5. Whatever the request, [fetch_from_s3] answers with status 200, 400
    or 500 and never changes the bucket, the tables or the clients. When
    the status is not 200 nothing at all has changed; when it is 200 the
    container has changed at the requested key only, to what the bucket
    holds there. *)
Theorem fetch_from_s3_frame (w : world) (data : json) :
  let resp := fst (fetch_from_s3 w data) in
  let w' := snd (fetch_from_s3 w data) in
  (snd resp = 200 \/ snd resp = 400 \/ snd resp = 500)
  /\ s3_objects w' = s3_objects w
  /\ tables w' = tables w
  /\ s3_client w' = s3_client w
  /\ blob_service_client w' = blob_service_client w
  /\ (snd resp <> 200 -> w' = w)
  /\ (snd resp = 200 ->
      exists key file_data,
        getitem data "file_key" = Ok (JStr key)
        /\ s3_objects w !! key = Some file_data
        /\ blob_objects w' = <[key := file_data]> (blob_objects w)).
Proof.
  cbv zeta.
  destruct (Z.eq_dec (snd (fst (fetch_from_s3 w data))) 200) as [Hok | Hno].
  - destruct (fetch_from_s3_ok _ _ Hok) as (key & file_data & Hk & _ & Hs & _ & _ & _ & Heq).
    rewrite Heq. cbn [fst snd upload_blob s3_objects tables s3_client
                      blob_service_client blob_objects].
    split; [auto|]. do 4 (split; [reflexivity|]).
    split; [intros H; contradiction H; reflexivity|].
    intros _. exists key, file_data. auto.
  - destruct (fetch_from_s3_not_ok _ _ Hno) as (Hw & Hst).
    rewrite Hw. split; [tauto|]. do 4 (split; [reflexivity|]).
    split; [reflexivity | contradiction].
Qed.

(** X6. The status is 400 exactly when the body is empty in the sense of
    the interpreter (null, false, zero, or an empty string, list or
    object) or does not contain [file_key]; the reply is then the same
    whatever the state of the stores and of the clients. *)
Theorem fetch_from_s3_bad_request (w : world) (data : json) :
  (snd (fst (fetch_from_s3 w data)) = 400
   <-> truthy data = false \/ contains data "file_key" = Ok false)
  /\ (snd (fst (fetch_from_s3 w data)) = 400 ->
      fetch_from_s3 w data
      = ((error "Missing 'file_key' in request" None, 400), w)).
Proof.
  unfold fetch_from_s3.
  destruct (truthy data) eqn:Ht.
  - destruct (contains data "file_key") as [[] |] eqn:Hc; cbn [fst snd].
    + destruct (getitem data "file_key") as [file_key |]; cbn [fst snd].
      * destruct (s3_client w); cbn [negb fst snd].
        -- destruct (get_object w file_key) as [[key file_data] |]; cbn [fst snd].
           ++ destruct (blob_service_client w); cbn [negb fst snd];
                [destruct (upload_blob_raises w key file_data); cbn [fst snd] |];
                (split; [split; [discriminate | intros [|]; discriminate]
                        | discriminate]).
           ++ split; [split; [discriminate | intros [|]; discriminate]
                     | discriminate].
        -- split; [split; [discriminate | intros [|]; discriminate] | discriminate].
      * split; [split; [discriminate | intros [|]; discriminate] | discriminate].
    + split; [split; auto | auto].
    + split; [split; [discriminate | intros [|]; discriminate] | discriminate].
  - cbn [fst snd]. split; [split; auto | auto].
Qed.

(** X7. A body that is not an object never reaches a store: the state is
    unchanged and the reply is either the 400 of a missing [file_key] or
    the 500 of a [TypeError]. The latter is the reply to a list that has
    the string [file_key] among its items, which passes the test for the
    key and then cannot be subscripted by it. *)
Theorem fetch_from_s3_body_not_an_object (w : world) (data : json) :
  (forall members, data <> JObj members) ->
  snd (fetch_from_s3 w data) = w
  /\ (fst (fetch_from_s3 w data) = (error "Missing 'file_key' in request" None, 400)
      \/ fst (fetch_from_s3 w data) = internal_error TypeError)
  /\ (forall items, data = JArr items -> In (JStr "file_key") items ->
      fst (fetch_from_s3 w data) = internal_error TypeError).
Proof.
  intros Hno. unfold fetch_from_s3.
  destruct data as [| b | d | s | items | members];
    try (exfalso; exact (Hno _ eq_refl)); cbn [truthy contains getitem].
  - repeat split; auto. discriminate.
  - destruct b; cbn [fst snd]; repeat split; auto; discriminate.
  - destruct (negb (is_zero d)); cbn [fst snd]; repeat split; auto;
      discriminate.
  - destruct (negb (String.eqb s EmptyString)); cbn [fst snd];
      [destruct (is_substring "file_key" s) |]; cbn [fst snd];
      repeat split; auto; discriminate.
  - assert (Hin : In (JStr "file_key") items -> existsb (is_str "file_key") items = true).
    { intros H. apply existsb_exists. exists (JStr "file_key"). split; [exact H|].
      reflexivity. }
    destruct items as [| x rest]; cbn [length Nat.eqb negb fst snd].
    + repeat split; auto. intros items' [= <-] [].
    + destruct (existsb (is_str "file_key") (x :: rest)) eqn:E; cbn [fst snd];
        repeat split; auto;
        intros items' [= <-] H; apply Hin in H; congruence.
Qed.

(** ** More on [upload_and_process] *)

Lemma upload_and_process_status (w : world) (req : submitted) :
  snd (fst (upload_and_process w req)) = 200 ->
  exists data batch,
    req = Parsed data /\ decompose data = Ok batch /\ s3_client w = true
    /\ snd (upload_and_process w req)
       = put_object (with_tables w (write_batch (tables w) batch))
           "insurance_data.json"
           (json_dumps (map (rate (column_collation env))
                            (policy (write_batch (tables w) batch)))).
Proof.
  destruct req as [| | data]; try discriminate.
  rewrite upload_and_process_refines.
  destruct (decompose data) as [batch |] eqn:Hd; [| discriminate]. cbv zeta.
  destruct (s3_client w) eqn:Hs; [| discriminate].
  destruct (put_object_raises w _ _); [discriminate|].
  intros _. exists data, batch. repeat split; auto.
Qed.

(** X10. Whatever the request, [upload_and_process] answers with status
    200, 400 or 500 and never changes the container or the clients. In the
    bucket it writes at most the object [insurance_data.json]. Rows are
    only added: each table after the request is the table before it,
    followed by new rows. *)
Theorem upload_and_process_frame (w : world) (req : submitted) :
  let resp := fst (upload_and_process w req) in
  let w' := snd (upload_and_process w req) in
  (snd resp = 200 \/ snd resp = 400 \/ snd resp = 500)
  /\ blob_objects w' = blob_objects w
  /\ s3_client w' = s3_client w
  /\ blob_service_client w' = blob_service_client w
  /\ (forall k, k <> "insurance_data.json" ->
        s3_objects w' !! k = s3_objects w !! k)
  /\ exists ps cs vs cvs,
       policy (tables w') = (policy (tables w) ++ ps)%list
       /\ customer_info (tables w') = (customer_info (tables w) ++ cs)%list
       /\ vehicle_info (tables w') = (vehicle_info (tables w) ++ vs)%list
       /\ coverage_info (tables w') = (coverage_info (tables w) ++ cvs)%list.
Proof.
  cbv zeta.
  assert (Hsame : exists ps cs vs cvs,
            policy (tables w) = (policy (tables w) ++ ps)%list
            /\ customer_info (tables w) = (customer_info (tables w) ++ cs)%list
            /\ vehicle_info (tables w) = (vehicle_info (tables w) ++ vs)%list
            /\ coverage_info (tables w) = (coverage_info (tables w) ++ cvs)%list)
    by (exists [], [], [], []; rewrite !app_nil_r; auto).
  destruct req as [| | data];
    [cbn [upload_and_process fst snd]; repeat split; auto ..|].
  rewrite upload_and_process_refines.
  destruct (decompose data) as [batch |]; [| cbn [fst snd]; repeat split; auto].
  cbv zeta.
  assert (Hnew : exists ps cs vs cvs,
            policy (write_batch (tables w) batch) = (policy (tables w) ++ ps)%list
            /\ customer_info (write_batch (tables w) batch)
               = (customer_info (tables w) ++ cs)%list
            /\ vehicle_info (write_batch (tables w) batch)
               = (vehicle_info (tables w) ++ vs)%list
            /\ coverage_info (write_batch (tables w) batch)
               = (coverage_info (tables w) ++ cvs)%list).
  { destruct (write_batch_tables (tables w) batch) as (H1 & H2 & H3 & H4).
    eauto 10. }
  destruct (s3_client w) eqn:Hs;
    [destruct (put_object_raises w _ _) |];
    cbn [fst snd put_object with_tables blob_objects
         s3_client blob_service_client s3_objects tables]; repeat split; auto.
  intros k Hk. apply lookup_insert_ne. congruence.
Qed.

(** X11. The write is not undone when the document cannot be published:
    without the S3 client a batch that the inserts accept is committed, the
    reply is the error of the missing client with status 500, and the
    bucket is as it was. *)
Theorem rows_stay_when_s3_client_is_missing (w : world) (data : json) (db' : database) :
  s3_client w = false ->
  db_connection (tables w) (insert_document data) = (Ok tt, db') ->
  upload_and_process w (Parsed data)
  = ((error "AWS S3 client not initialized." None, 500), with_tables w db').
Proof.
  intros Hs H. rewrite upload_and_process_refines.
  rewrite insert_document_refines in H.
  destruct (decompose data) as [batch |]; [| discriminate].
  injection H as <-. cbv zeta. rewrite Hs. reflexivity.
Qed.

(** X12. Nothing keeps a policy from being stored twice: when a document
    is accepted and then submitted again, the rows written for it the first
    time are written a second time after them. *)
Theorem resubmission_duplicates_rows (w : world) (data : json) (db' : database) :
  db_connection (tables w) (insert_document data) = (Ok tt, db') ->
  exists ps,
    policy db' = (policy (tables w) ++ ps)%list
    /\ policy (tables (snd (upload_and_process
                              (snd (upload_and_process w (Parsed data)))
                              (Parsed data))))
       = (policy (tables w) ++ ps ++ ps)%list.
Proof.
  intros H. rewrite insert_document_refines in H.
  destruct (decompose data) as [batch |] eqn:Hd; [| discriminate].
  injection H as <-.
  exists (map row_policy batch).
  destruct (write_batch_tables (tables w) batch) as (Hp & _).
  split; [exact Hp|].
  assert (Hfirst : tables (snd (upload_and_process w (Parsed data)))
                   = write_batch (tables w) batch).
  { rewrite upload_and_process_refines, Hd. cbv zeta.
    destruct (s3_client w); [| reflexivity].
    destruct (put_object_raises w _ _); reflexivity. }
  rewrite upload_and_process_refines, Hd. cbv zeta. rewrite Hfirst.
  assert (Hsecond :
    policy (write_batch (write_batch (tables w) batch) batch)
    = (policy (tables w) ++ map row_policy batch ++ map row_policy batch)%list).
  { destruct (write_batch_tables (write_batch (tables w) batch) batch) as (-> & _).
    rewrite Hp, <- app_assoc. reflexivity. }
  destruct (s3_client (snd (upload_and_process w (Parsed data))));
    [destruct (put_object_raises _ _ _) |];
    cbn [snd put_object with_tables tables]; exact Hsecond.
Qed.

Lemma json_dumps_empty (l : list RatedPolicy.t) :
  json_dumps l = "[]" <-> l = [].
Proof.
  destruct l as [| x rest]; [tauto|].
  split; [| discriminate]. unfold json_dumps, nl. cbn. discriminate.
Qed.

(** X13. When the status is 200, the published document is the empty
    array exactly when the policy table is empty after the request. *)
Theorem published_empty_iff_table_empty (w : world) (req : submitted) :
  snd (fst (upload_and_process w req)) = 200 ->
  (s3_objects (snd (upload_and_process w req)) !! "insurance_data.json"
   = Some "[]"
   <-> policy (tables (snd (upload_and_process w req))) = []).
Proof.
  intros H.
  destruct (upload_and_process_status _ _ H) as (data & batch & -> & Hd & Hs & ->).
  unfold put_object; cbn [s3_objects tables with_tables].
  rewrite lookup_insert_eq. split.
  - intros [= E]. apply json_dumps_empty in E.
    destruct (policy (write_batch (tables w) batch)); [reflexivity | discriminate].
  - intros ->. reflexivity.
Qed.

(** X14. A document that offers no branches to walk is refused with status
    500 and nothing changes: with [TypeError] when the document is not an
    object, or when its [branches] is null, a boolean or a number; with
    [KeyError] when the object has no [branches]. *)
Theorem document_without_branches_is_refused (w : world) (data : json) :
  ((forall members, data <> JObj members) ->
   upload_and_process w (Parsed data) = (internal_error TypeError, w))
  /\ (forall members, data = JObj members -> assoc "branches" members = None ->
      upload_and_process w (Parsed data)
      = (internal_error (KeyError "branches"), w))
  /\ (forall x, getitem data "branches" = Ok x ->
      (x = JNull \/ (exists b, x = JBool b) \/ (exists d, x = JNum d)) ->
      upload_and_process w (Parsed data) = (internal_error TypeError, w)).
Proof.
  repeat split.
  - intros Hno. rewrite upload_and_process_refines. unfold decompose.
    destruct data; try reflexivity. exfalso. exact (Hno _ eq_refl).
  - intros members -> Hnone. rewrite upload_and_process_refines.
    unfold decompose. cbn [getitem]. rewrite Hnone. reflexivity.
  - intros x Hx Hkind. rewrite upload_and_process_refines. unfold decompose.
    rewrite Hx. destruct Hkind as [-> | [[b ->] | [d ->]]]; reflexivity.
Qed.

(** X15. A [branches] that is an object or a string is walked like a list,
    by its keys or its characters: when it is empty the document is
    accepted as one without branches, and otherwise the first key or
    character has no [get] and the document is refused with
    [AttributeError] and status 500, nothing changed. *)
Theorem branches_that_are_no_list (w : world) (data x : json) :
  getitem data "branches" = Ok x ->
  (x = JObj [] \/ x = JStr EmptyString ->
   upload_and_process w (Parsed data)
   = upload_and_process w (Parsed (JObj [("branches", JArr [])])))
  /\ ((exists m ms, x = JObj (m :: ms)) \/ (exists c s, x = JStr (String c s)) ->
      upload_and_process w (Parsed data) = (internal_error AttributeError, w)).
Proof.
  intros Hx. split.
  - intros [-> | ->]; rewrite !upload_and_process_refines; unfold decompose;
      rewrite Hx; reflexivity.
  - intros [(m & ms & ->) | (c & s & ->)];
      rewrite upload_and_process_refines; unfold decompose; rewrite Hx;
      reflexivity.
Qed.

(** ** Rows and the policies that were submitted *)

Lemma collect_policies_Forall2 (branch_id : json) (policies : list json) rb :
  collect (fun p => r <~ decompose_policy branch_id p ;; Ok [r]) policies = Ok rb ->
  Forall2 (fun p r => decompose_policy branch_id p = Ok r) policies rb.
Proof.
  revert rb. induction policies as [| p rest IH]; intros rb H; cbn [collect] in H.
  - injection H as <-. constructor.
  - destruct (decompose_policy branch_id p) as [r |] eqn:E; cbn [rbind] in H;
      [| discriminate].
    destruct (collect _ rest) as [rs |]; cbn [rbind] in H; [| discriminate].
    injection H as <-. constructor; auto.
Qed.

Lemma collect_visit (branches : list json) (batch : list rows) :
  collect decompose_branch branches = Ok batch ->
  exists pairs,
    visit branches = Ok pairs
    /\ Forall2 (fun bp r => decompose_policy (fst bp) (snd bp) = Ok r) pairs batch.
Proof.
  revert batch. induction branches as [| b rest IH]; intros batch H;
    cbn [collect visit] in *.
  - injection H as <-. exists []. split; [reflexivity | constructor].
  - unfold decompose_branch in H at 1. unfold policies_of.
    destruct (dict_get b "branch_id") as [id |]; cbn [rbind] in *; [| discriminate].
    destruct (l <~ getitem b "policies" ;; iterate l) as [ps |]; cbn [rbind] in *;
      [| discriminate].
    destruct (collect (fun p => r <~ decompose_policy id p ;; Ok [r]) ps)
      as [rb |] eqn:Eb; cbn [rbind] in H; [| discriminate].
    destruct (collect decompose_branch rest) as [rs |]; cbn [rbind] in H;
      [| discriminate].
    injection H as <-.
    destruct (IH rs eq_refl) as (more & -> & Hmore). cbn [rbind].
    eexists. split; [reflexivity|].
    apply Forall2_app; [| exact Hmore].
    apply collect_policies_Forall2 in Eb.
    clear -Eb. induction Eb; cbn [map]; constructor; auto.
Qed.

Lemma decompose_submitted (data : json) (batch : list rows) :
  decompose data = Ok batch ->
  exists pairs,
    submitted_policies data = Ok pairs
    /\ Forall2 (fun bp r => decompose_policy (fst bp) (snd bp) = Ok r) pairs batch.
Proof.
  unfold decompose, submitted_policies.
  destruct (l <~ getitem data "branches" ;; iterate l) as [branches |];
    cbn [rbind]; [| discriminate].
  apply collect_visit.
Qed.

(** X16. A batch that is written adds to each of the four tables exactly
    one row for every policy object the loops visit. *)
Theorem each_table_gains_a_row_per_policy (db db' : database) (data : json) :
  db_connection db (insert_document data) = (Ok tt, db') ->
  exists pairs,
    submitted_policies data = Ok pairs
    /\ length (policy db') = (length (policy db) + length pairs)%nat
    /\ length (customer_info db') = (length (customer_info db) + length pairs)%nat
    /\ length (vehicle_info db') = (length (vehicle_info db) + length pairs)%nat
    /\ length (coverage_info db') = (length (coverage_info db) + length pairs)%nat.
Proof.
  rewrite insert_document_refines.
  destruct (decompose data) as [batch |] eqn:Hd; [| discriminate].
  intros [= <-].
  destruct (decompose_submitted _ _ Hd) as (pairs & Hs & Hall).
  exists pairs. split; [exact Hs|].
  apply Forall2_length in Hall.
  destruct (write_batch_tables db batch) as (-> & -> & -> & ->).
  rewrite !length_app, !length_map, Hall. auto.
Qed.

Lemma visit_valid (branches : list json) (pairs : list (json * json)) :
  (forall b, In b branches -> valid_branch b = true) ->
  visit branches = Ok pairs ->
  Forall (fun bp => valid_policy (snd bp) = true
                    /\ exists bid, fst bp = JStr bid
                                   /\ stored_text 10 (JStr bid) = Ok bid) pairs.
Proof.
  revert pairs. induction branches as [| b rest IH]; intros pairs Hv H;
    cbn [visit] in H.
  - injection H as <-. constructor.
  - destruct (valid_branch_inv _ (Hv b (or_introl eq_refl)))
      as (bid & ps & Hid & Hst & Hps & Hpol).
    unfold policies_of in H. rewrite Hid, Hps in H. cbn [rbind iterate] in H.
    destruct (visit rest) as [more |]; cbn [rbind] in H; [| discriminate].
    injection H as <-. apply Forall_app. split.
    + apply List.Forall_forall. intros bp Hin. apply in_map_iff in Hin.
      destruct Hin as (p & <- & Hp). cbn [fst snd]. split; [auto | eauto].
    + apply IH; [| reflexivity]. intros b' Hb'. apply Hv. right. exact Hb'.
Qed.

(** X17. The rows of a valid document are stored in the order of the
    document: the new rows of the policy table go one to one with the
    policy objects in the order the loops visit them, each row with the
    policy_id of its object and the branch_id of the branch the object is
    in. *)
Theorem valid_batch_is_stored_in_document_order (db : database) (data : json) :
  valid_document data = true ->
  exists pairs ps,
    submitted_policies data = Ok pairs
    /\ policy (snd (db_connection db (insert_document data)))
       = (policy db ++ ps)%list
    /\ Forall2 (fun bp r =>
                  fst bp = JStr (Policy.branch_id r)
                  /\ getitem (snd bp) "policy_id" = Ok (JStr (Policy.policy_id r)))
               pairs ps.
Proof.
  intros Hv. destruct (valid_document_decomposes _ Hv) as (batch & Hd).
  rewrite insert_document_refines, Hd. cbn [snd].
  destruct (decompose_submitted _ _ Hd) as (pairs & Hs & Hall).
  exists pairs, (map row_policy batch).
  split; [exact Hs|]. split; [apply write_batch_tables|].
  assert (Hvalid : Forall (fun bp => valid_policy (snd bp) = true
                    /\ exists bid, fst bp = JStr bid
                                   /\ stored_text 10 (JStr bid) = Ok bid) pairs).
  { destruct (valid_document_inv _ Hv) as (branches & Hb & Hbr).
    unfold submitted_policies in Hs. rewrite Hb in Hs. cbn [rbind iterate] in Hs.
    eapply visit_valid; eauto. }
  clear -Hall Hvalid. induction Hall as [| bp r pairs batch Hr Hall IH];
    cbn [map]; constructor.
  - apply Forall_inv in Hvalid. destruct Hvalid as (Hvp & bid & Hbid & Hst).
    destruct (stored_row_of_valid_policy _ _ _ Hvp Hr) as (d & H1 & _).
    split; [| exact H1].
    destruct r as [[[r1 r2] r3] r4]. apply decompose_policy_inv in Hr.
    destruct Hr as (a1 & a2 & a4 & a6 & Hr). decompose [and] Hr.
    unfold row_policy; cbn [fst]. rewrite Hbid in *. f_equal. congruence.
  - apply IH. apply Forall_inv_tail in Hvalid. exact Hvalid.
Qed.

Lemma insert_policy_committed (branch_id p : json) (c : connection) :
  committed (snd (insert_policy branch_id p c)) = committed c.
Proof.
  destruct (insert_policy_refines branch_id p c) as (c' & -> & H & _). exact H.
Qed.

Lemma for_each_stops (branch_id : json) (good : list json) (bad : json)
    (rest : list json) (e : exn) :
  (forall q c0, In q good -> fst (insert_policy branch_id q c0) = Ok tt) ->
  (forall c0, fst (insert_policy branch_id bad c0) = Raise e) ->
  forall c,
    fst (for_each (good ++ bad :: rest)%list (insert_policy branch_id) c) = Raise e
    /\ committed (snd (for_each (good ++ bad :: rest)%list
                         (insert_policy branch_id) c)) = committed c.
Proof.
  intros Hgood Hbad. induction good as [| q good IH]; intros c;
    cbn [app for_each]; unfold bind.
  - pose proof (Hbad c) as Hb. pose proof (insert_policy_committed branch_id bad c) as Hc.
    destruct (insert_policy branch_id bad c) as [r c1]. cbn [fst snd] in *.
    subst r. auto.
  - pose proof (Hgood q c (or_introl eq_refl)) as Hq.
    pose proof (insert_policy_committed branch_id q c) as Hc.
    destruct (insert_policy branch_id q c) as [r c1]. cbn [fst snd] in *.
    subst r. rewrite <- Hc. apply IH.
    intros q' c0 Hin. apply Hgood. right. exact Hin.
Qed.

(** X18. The policies of a branch are inserted in order until one raises:
    when the policies before it are accepted by their inserts, the
    exception of the first policy that is not is the exception of the
    branch, whatever the policies after it are, and nothing has been
    committed. *)
Theorem first_failing_policy_stops_the_branch (branch branch_id bad : json)
    (good rest : list json) (e : exn) (c : connection) :
  dict_get branch "branch_id" = Ok branch_id ->
  policies_of branch = Ok (good ++ bad :: rest)%list ->
  (forall q c0, In q good -> fst (insert_policy branch_id q c0) = Ok tt) ->
  (forall c0, fst (insert_policy branch_id bad c0) = Raise e) ->
  fst (insert_branch branch c) = Raise e
  /\ committed (snd (insert_branch branch c)) = committed c.
Proof.
  intros Hid Hps Hgood Hbad. unfold insert_branch, bind, lift.
  unfold policies_of in Hps. rewrite Hid, Hps.
  apply for_each_stops; assumption.
Qed.

(** ** Commit, publication and null values *)

(** X20. The inserts alone store nothing: when the statements for the
    branches of a document are run on a connection that is then closed
    without a commit, the tables are as they were, whether a statement
    raised or not. *)
Theorem inserts_without_commit_store_nothing (db : database) (branches : list json) :
  snd (db_connection db (for_each branches insert_branch)) = db.
Proof.
  unfold db_connection.
  destruct (refines_for_each insert_branch decompose_branch branches
              insert_branch_refines (connect db)) as (c' & -> & Hc & _).
  unfold close. rewrite Hc. reflexivity.
Qed.

(** X21. What is published is what is stored: when the status is 200, the
    object [insurance_data.json] of the bucket is the encoding of the
    rated policies of the whole policy table as it is after the request,
    in the order of the table. *)
Theorem published_document_is_the_table (w : world) (req : submitted) :
  snd (fst (upload_and_process w req)) = 200 ->
  s3_objects (snd (upload_and_process w req)) !! "insurance_data.json"
  = Some (json_dumps
            (map (rate (column_collation env))
                 (policy (tables (snd (upload_and_process w req)))))).
Proof.
  intros H.
  destruct (upload_and_process_status _ _ H) as (data & batch & -> & Hd & Hs & ->).
  unfold put_object; cbn [s3_objects tables with_tables].
  apply lookup_insert_eq.
Qed.

Lemma stored_text_not_null (n : nat) (t : string) : stored_text n JNull = Ok t -> False.
Proof. discriminate. Qed.

Lemma stored_decimal_not_null (p s : nat) (u : Z) :
  stored_decimal p s JNull = Ok u -> False.
Proof. discriminate. Qed.

Lemma stored_int_not_null (u : Z) : stored_int JNull = Ok u -> False.
Proof. discriminate. Qed.

Lemma decompose_policy_not_null (branch_id p : json) (r : rows) (path : list string) :
  decompose_policy branch_id p = Ok r ->
  In path required_fields ->
  lookup_path p path = Ok JNull -> False.
Proof.
  unfold decompose_policy. split_result; try discriminate. intros _ Hin.
  repeat match goal with
         | H : policy_values _ _ _ _ _ _ _ = Ok _ |- _ =>
             apply policy_values_columns in H; decompose [and] H; clear H
         | H : customer_values _ _ _ _ = Ok _ |- _ =>
             apply customer_values_columns in H; decompose [and] H; clear H
         | H : vehicle_values _ _ _ _ _ = Ok _ |- _ =>
             apply vehicle_values_columns in H; decompose [and] H; clear H
         | H : coverage_values _ _ _ _ _ = Ok _ |- _ =>
             apply coverage_values_columns in H; decompose [and] H; clear H
         end.
  unfold required_fields in Hin. cbn [In] in Hin.
  repeat (destruct Hin as [<- | Hin];
          [rewrite ?lookup_path_1, ?lookup_path_2; intros Hnull;
           match goal with
           | E : ?l = Ok ?x, N : ?l = Ok JNull |- _ =>
               rewrite E in N; injection N as ->
           end;
           eauto using stored_text_not_null, stored_decimal_not_null,
             stored_int_not_null |]).
  contradiction.
Qed.

(** X22. A null is no value for a field: a document in which a required
    field of some policy is present and null is refused whole, with an
    error reply of status 500 and nothing changed. *)
Theorem null_field_fails_batch (w : world) (data branch p : json)
    (branches policies : list json) (path : list string) :
  (l <~ getitem data "branches" ;; iterate l) = Ok branches ->
  In branch branches ->
  policies_of branch = Ok policies ->
  In p policies ->
  In path required_fields ->
  lookup_path p path = Ok JNull ->
  exists e, upload_and_process w (Parsed data) = (internal_error e, w).
Proof.
  intros Hb Hin Hps Hp Hpath Hnull. rewrite upload_and_process_refines.
  destruct (decompose data) as [batch | e] eqn:Hd; [| eauto].
  exfalso. destruct (decompose_inv _ _ Hd) as (branches' & Hb' & Hall).
  rewrite Hb in Hb'. injection Hb' as <-.
  destruct (Hall branch Hin) as (bid & ps & rb & _ & Hps' & _ & Hpol).
  rewrite Hps in Hps'. injection Hps' as <-.
  destruct (Hpol p Hp) as (r & Hr & _).
  exact (decompose_policy_not_null _ _ _ _ Hr Hpath Hnull).
Qed.

End Pipeline.

(** * Worked examples *)

(** The published document for the three policies of the worked examples:
    premiums 2900, 13500 and 450; the first is granted, the second is not
    below the threshold, the third is of high risk. *)
Example three_policies_rated :
  fst (db_connection
         (snd (db_connection no_tables (insert_document sample_env three_policies)))
         (select_rated general_ci))
  = Ok [ RatedPolicy.Make "P1" "auto" (Dec 100000 2) (Dec 200000 2) "low"
           (Dec 1000 2) (Dec 290000000000 8) "Granted";
         RatedPolicy.Make "P2" "auto" (Dec 900000 2) (Dec 300000 2) "medium"
           (Dec 0 2) (Dec 1350000000000 8) "Rejected";
         RatedPolicy.Make "P3" "auto" (Dec 50000 2) (Dec 10000 2) "high"
           (Dec 5000 2) (Dec 45000000000 8) "Rejected" ].
Proof. vm_compute; reflexivity. Qed.

(** Before the third policy of [third_policy_broken] raises, the rows of
    the first two are in the session's view, and in no other. *)
Example rows_of_a_failed_batch_were_pending :
  let c := snd (insert_document sample_env third_policy_broken (connect no_tables)) in
  length (policy (working c)) = 2%nat /\ committed c = no_tables.
Proof. split; vm_compute; reflexivity. Qed.

(** * Instances of the theorems *)

(** The third policy of [third_policy_broken] raises [KeyError]: nothing
    is stored and the reply is the error. *)
Lemma batch_write_all_or_nothing_witness :
  fst (db_connection no_tables (insert_document sample_env third_policy_broken))
  = Raise (KeyError "risk_factor")
  /\ snd (db_connection no_tables (insert_document sample_env third_policy_broken))
     = no_tables
  /\ upload_and_process sample_env (sample_world no_tables)
       (Parsed third_policy_broken)
     = (internal_error (KeyError "risk_factor"), sample_world no_tables).
Proof.
  split; [vm_compute; reflexivity|].
  apply (proj1 (batch_write_all_or_nothing sample_env (sample_world no_tables)
                  third_policy_broken)).
  vm_compute; reflexivity.
Defined.

(** The rows written for [three_policies]. *)
Lemma stored_copies_agree_witness :
  let db' := snd (db_connection no_tables (insert_document sample_env three_policies)) in
  db_connection no_tables (insert_document sample_env three_policies) = (Ok tt, db')
  /\ exists ps vs cs,
       policy db' = (policy no_tables ++ ps)%list
       /\ vehicle_info db' = (vehicle_info no_tables ++ vs)%list
       /\ coverage_info db' = (coverage_info no_tables ++ cs)%list
       /\ Forall3 (fun p v c =>
                     Policy.policy_id p = VehicleInfo.policy_id v
                     /\ Policy.policy_id p = CoverageInfo.policy_id c
                     /\ Policy.discount p = CoverageInfo.discount c
                     /\ Policy.vehicle_damage p = VehicleInfo.vehicle_damage v)
                  ps vs cs.
Proof.
  split; [vm_compute; reflexivity|].
  apply (stored_copies_agree sample_env no_tables _ three_policies).
  vm_compute; reflexivity.
Defined.

(** [third_policy_broken] is refused, and the policy stored before stays
    alone in the table. *)
Lemma missing_field_fails_batch_witness :
  (l <~ getitem third_policy_broken "branches" ;; iterate l)
  = Ok [JObj [("branch_id", JStr "B1");
              ("policies", JArr [policy_1; policy_2; without "risk_factor" policy_3])]]
  /\ exists e,
       upload_and_process sample_env (sample_world one_policy_stored)
         (Parsed third_policy_broken)
       = (internal_error e, sample_world one_policy_stored).
Proof.
  split; [reflexivity|].
  eapply (missing_field_fails_batch sample_env _ third_policy_broken);
    [reflexivity|].
  eapply (no_field _ _ _ (without "risk_factor" policy_3) ["risk_factor"]).
  - left; reflexivity.
  - reflexivity.
  - right; right; left; reflexivity.
  - right; right; right; left; reflexivity.
  - exists (KeyError "risk_factor"). reflexivity.
Defined.

(** [three_policies] is valid; the bucket takes the document, which lists
    the policy stored before and the three of the batch. *)
Lemma valid_batch_round_trip_witness :
  let w := sample_world one_policy_stored in
  let resp := fst (upload_and_process sample_env w (Parsed three_policies)) in
  let w' := snd (upload_and_process sample_env w (Parsed three_policies)) in
  let out := map (rate general_ci) (policy (tables w')) in
  valid_document three_policies = true
  /\ length out = 4%nat
  /\ (forall p, submitted_in three_policies p ->
        exists o d,
          In o out
          /\ getitem p "policy_id" = Ok (JStr (RatedPolicy.policy_id o))
          /\ getitem p "policy_type" = Ok (JStr (RatedPolicy.policy_type o))
          /\ getitem2 p "coverage_info" "discount" = Ok (JNum d)
          /\ (dec_value (RatedPolicy.discount o) == dec_value d)%Q)
  /\ snd resp = 200
  /\ s3_objects w' !! "insurance_data.json" = Some (json_dumps sample_env out).
Proof.
  cbv zeta.
  destruct (valid_batch_round_trip sample_env (sample_world one_policy_stored)
              three_policies) as (Hall & Hiff & Hpub);
    [vm_compute; reflexivity|].
  assert (Hok : snd (fst (upload_and_process sample_env
                            (sample_world one_policy_stored)
                            (Parsed three_policies))) = 200)
    by (vm_compute; reflexivity).
  split; [vm_compute; reflexivity|]. split; [vm_compute; reflexivity|].
  split; [exact Hall|]. split; [exact Hok|]. exact (proj1 (Hpub Hok)).
Defined.

(** No branches and empty tables: the empty array is published. *)
Lemma empty_branches_republish_the_table_witness :
  getitem no_branches "branches" = Ok (JArr [])
  /\ tables (snd (upload_and_process sample_env (sample_world no_tables)
                    (Parsed no_branches))) = no_tables
  /\ snd (fst (upload_and_process sample_env (sample_world no_tables)
                 (Parsed no_branches))) = 200
  /\ s3_objects (snd (upload_and_process sample_env (sample_world no_tables)
                        (Parsed no_branches)))
       !! "insurance_data.json" = Some "[]".
Proof.
  split; [reflexivity|].
  destruct (empty_branches_republish_the_table sample_env (sample_world no_tables)
              no_branches eq_refl) as (Ht & Hiff & _ & He).
  assert (Hok : snd (fst (upload_and_process sample_env (sample_world no_tables)
                            (Parsed no_branches))) = 200)
    by (apply Hiff; split; reflexivity).
  split; [exact Ht|]. split; [exact Hok|]. exact (He Hok eq_refl).
Defined.

(** A key the bucket does not hold. *)
Lemma copy_of_missing_key_fails_witness :
  s3_objects one_object !! "absent.csv" = None
  /\ snd (fetch_from_s3 one_object (copy_request "absent.csv")) = one_object
  /\ fst (fetch_from_s3 one_object (copy_request "absent.csv"))
     = (error "Error fetching file from AWS S3: " (Some NoSuchKey), 500).
Proof.
  split; [vm_compute; reflexivity|].
  destruct (copy_of_missing_key_fails one_object (copy_request "absent.csv")
              "absent.csv" eq_refl ltac:(vm_compute; reflexivity))
    as (Hw & _ & He).
  split; [exact Hw | apply He; [reflexivity | discriminate]].
Defined.


(** * Where the code departs from a stated property *)

(** C1. In a collation that ignores the case of letters, the risk factor
    Medium, which is none of the texts low, medium and high, is rated with
    the multiplier 1.5 of medium, not with 1.0: the premium of a policy
    with base premium 1000, damage 2000 and discount 10 is 3900, not
    2900. *)
Lemma medium_in_capitals_is_rated_as_medium :
  "Medium" <> "low" /\ "Medium" <> "medium" /\ "Medium" <> "high"
  /\ risk_multiplier general_ci "Medium" = Dec 15 1
  /\ calculated_premium general_ci (sample_row "Medium" 200000 1000)
     = Dec 390000000000 8.
Proof. repeat split; try discriminate; vm_compute; reflexivity. Qed.

(** C2. In the same collation a policy whose risk factor is Medium, or low
    followed by a space, is granted, though its risk factor is neither of
    the texts low and medium. *)
Lemma medium_in_capitals_is_granted :
  "Medium" <> "low" /\ "Medium" <> "medium"
  /\ insurance_granted general_ci (sample_row "Medium" 200000 1000) = "Granted"
  /\ "low " <> "low" /\ "low " <> "medium"
  /\ insurance_granted general_ci (sample_row "low " 200000 1000) = "Granted".
Proof. repeat split; try discriminate; vm_compute; reflexivity. Qed.

(** C3. The policies [two_discounts 50] and [two_discounts 20] both have a
    discount of 10 of their own; they differ in the discount under
    [coverage_info] only. Their premiums differ: 1000 + 2000 - 500 = 2500
    and 1000 + 2000 - 200 = 2800, where a discount of 10 gives 2900. *)
Lemma two_discounts_rated_with_coverage_discount :
  getitem (two_discounts 50) "discount" = Ok (JNum (Dec 10 0))
  /\ getitem (two_discounts 20) "discount" = Ok (JNum (Dec 10 0))
  /\ fst (db_connection
            (snd (db_connection no_tables
                    (insert_document sample_env
                       (sample_document [two_discounts 50; two_discounts 20]))))
            (select_rated general_ci))
     = Ok [ RatedPolicy.Make "P1" "auto" (Dec 100000 2) (Dec 200000 2) "low"
              (Dec 5000 2) (Dec 250000000000 8) "Granted";
            RatedPolicy.Make "P1" "auto" (Dec 100000 2) (Dec 200000 2) "low"
              (Dec 2000 2) (Dec 280000000000 8) "Granted" ].
Proof. repeat split; vm_compute; reflexivity. Qed.

(** C4. A branch that has no [branch_id] and no policies is accepted: the
    request is answered with status 200. *)
Lemma anonymous_branch_is_accepted :
  (l <~ getitem anonymous_branch "branches" ;; iterate l)
     = Ok [JObj [("policies", JArr [])]]
  /\ getitem (JObj [("policies", JArr [])]) "branch_id" = Raise (KeyError "branch_id")
  /\ fst (upload_and_process sample_env (sample_world no_tables)
            (Parsed anonymous_branch))
     = (message "Data successfully stored in MySQL and then uploaded to AWS S3!",
        200).
Proof. repeat split; vm_compute; reflexivity. Qed.

(** C7. With one policy in the table, a document with no branches
    publishes that policy, not the empty array. *)
Lemma no_branches_publish_stored_policy :
  getitem no_branches "branches" = Ok (JArr [])
  /\ s3_objects (snd (upload_and_process sample_env (sample_world one_policy_stored)
                        (Parsed no_branches)))
       !! "insurance_data.json"
     <> Some "[]".
Proof. split; [reflexivity | vm_compute; discriminate]. Qed.

(** * Instances of the further properties *)

(** A risk factor the tiers do not name. *)
Lemma unknown_risk_rated_as_low_and_rejected_witness :
  calculated_premium general_ci (sample_row "extreme" 200000 1000)
  = calculated_premium general_ci (sample_row "low" 200000 1000)
  /\ insurance_granted general_ci (sample_row "extreme" 200000 1000) = "Rejected"
  /\ insurance_granted general_ci (sample_row "low" 200000 1000) = "Granted".
Proof.
  destruct (unknown_risk_rated_as_low_and_rejected general_ci
              (sample_row "extreme" 200000 1000) (sample_row "low" 200000 1000))
    as [H1 H2]; try reflexivity.
  split; [exact H1 | split; [exact H2 | vm_compute; reflexivity]].
Defined.

(** A damage of 2000 against one of 9500, which crosses the threshold. *)
Lemma premium_grows_with_vehicle_damage_witness :
  (dec_value (calculated_premium general_ci (sample_row "low" 200000 1000))
   <= dec_value (calculated_premium general_ci (sample_row "low" 950000 1000)))%Q
  /\ insurance_granted general_ci (sample_row "low" 950000 1000) = "Rejected".
Proof.
  split; [| vm_compute; reflexivity].
  apply (premium_grows_with_vehicle_damage general_ci
           (sample_row "low" 200000 1000) (sample_row "low" 950000 1000));
    try reflexivity.
  cbn. lia.
Defined.

(** The three tiers at a damage of 2000. *)
Lemma premium_ordered_by_risk_witness :
  (dec_value (calculated_premium general_ci (sample_row "low" 200000 1000))
   <= dec_value (calculated_premium general_ci (sample_row "medium" 200000 1000)))%Q
  /\ (dec_value (calculated_premium general_ci (sample_row "medium" 200000 1000))
      <= dec_value (calculated_premium general_ci (sample_row "high" 200000 1000)))%Q.
Proof.
  apply (premium_ordered_by_risk general_ci
           (sample_row "low" 200000 1000) (sample_row "medium" 200000 1000)
           (sample_row "high" 200000 1000)); try reflexivity.
  cbn. lia.
Defined.

(** A discount of 150 on a base premium of 1000: the premium is -500. *)
Lemma discount_above_100_gives_negative_premium_witness :
  calculated_premium general_ci (sample_row "low" 0 15000) = Dec (-50000000000) 8
  /\ (dec_value (calculated_premium general_ci (sample_row "low" 0 15000)) < 0)%Q
  /\ insurance_granted general_ci (sample_row "low" 0 15000) = "Granted".
Proof.
  split; [vm_compute; reflexivity|].
  destruct (discount_above_100_gives_negative_premium general_ci
              (sample_row "low" 0 15000))
    as [H1 H2]; try reflexivity.
  split; [exact H1 | apply H2; left; reflexivity].
Defined.

(** A list that has [file_key] among its items. *)
Lemma fetch_from_s3_body_not_an_object_witness :
  fetch_from_s3 one_object (JArr [JStr "file_key"])
  = (internal_error TypeError, one_object).
Proof.
  destruct (fetch_from_s3_body_not_an_object one_object (JArr [JStr "file_key"]))
    as (Hw & _ & He); [discriminate|].
  rewrite (surjective_pairing (fetch_from_s3 one_object (JArr [JStr "file_key"]))).
  rewrite Hw, (He _ eq_refl (or_introl eq_refl)). reflexivity.
Defined.

(** The three policies, submitted where there is no S3 client. *)
Lemma rows_stay_when_s3_client_is_missing_witness :
  let db' := snd (db_connection no_tables (insert_document sample_env three_policies)) in
  length (policy db') = 3%nat
  /\ upload_and_process sample_env no_s3_client (Parsed three_policies)
     = ((error "AWS S3 client not initialized." None, 500),
        with_tables no_s3_client db').
Proof.
  split; [vm_compute; reflexivity|].
  apply (rows_stay_when_s3_client_is_missing sample_env no_s3_client three_policies);
    vm_compute; reflexivity.
Defined.

(** The three policies, submitted twice. *)
Lemma resubmission_duplicates_rows_witness :
  exists ps,
    policy (snd (db_connection no_tables (insert_document sample_env three_policies)))
    = (policy no_tables ++ ps)%list
    /\ policy (tables (snd (upload_and_process sample_env
                              (snd (upload_and_process sample_env
                                      (sample_world no_tables)
                                      (Parsed three_policies)))
                              (Parsed three_policies))))
       = (policy no_tables ++ ps ++ ps)%list.
Proof.
  apply (resubmission_duplicates_rows sample_env (sample_world no_tables)
           three_policies).
  vm_compute; reflexivity.
Defined.

(** No branches and empty tables. *)
Lemma published_empty_iff_table_empty_witness :
  snd (fst (upload_and_process sample_env (sample_world no_tables)
              (Parsed no_branches))) = 200
  /\ (s3_objects (snd (upload_and_process sample_env (sample_world no_tables)
                         (Parsed no_branches))) !! "insurance_data.json"
      = Some "[]"
      <-> policy (tables (snd (upload_and_process sample_env
                                 (sample_world no_tables) (Parsed no_branches))))
          = []).
Proof.
  split; [vm_compute; reflexivity|].
  apply published_empty_iff_table_empty. vm_compute; reflexivity.
Defined.

(** A [branches] with one key. *)
Lemma branches_that_are_no_list_witness :
  getitem branches_as_object "branches" = Ok (JObj [("north", JNull)])
  /\ upload_and_process sample_env (sample_world one_policy_stored)
       (Parsed branches_as_object)
     = (internal_error AttributeError, sample_world one_policy_stored).
Proof.
  split; [reflexivity|].
  apply (branches_that_are_no_list sample_env (sample_world one_policy_stored)
           branches_as_object (JObj [("north", JNull)]) eq_refl).
  left. exists ("north", JNull), []. reflexivity.
Defined.

(** The three policies: three rows in each table. *)
Lemma each_table_gains_a_row_per_policy_witness :
  let db' := snd (db_connection one_policy_stored
                    (insert_document sample_env three_policies)) in
  exists pairs,
    submitted_policies three_policies = Ok pairs
    /\ length (policy db') = (length (policy one_policy_stored) + length pairs)%nat
    /\ length (customer_info db')
       = (length (customer_info one_policy_stored) + length pairs)%nat
    /\ length (vehicle_info db')
       = (length (vehicle_info one_policy_stored) + length pairs)%nat
    /\ length (coverage_info db')
       = (length (coverage_info one_policy_stored) + length pairs)%nat.
Proof.
  apply (each_table_gains_a_row_per_policy sample_env one_policy_stored _
           three_policies).
  vm_compute; reflexivity.
Defined.

(** The three policies, after the policy stored before. *)
Lemma valid_batch_is_stored_in_document_order_witness :
  valid_document three_policies = true
  /\ exists pairs ps,
       submitted_policies three_policies = Ok pairs
       /\ policy (snd (db_connection one_policy_stored
                         (insert_document sample_env three_policies)))
          = (policy one_policy_stored ++ ps)%list
       /\ Forall2 (fun bp r =>
                     fst bp = JStr (Policy.branch_id r)
                     /\ getitem (snd bp) "policy_id"
                        = Ok (JStr (Policy.policy_id r)))
                  pairs ps.
Proof.
  split; [vm_compute; reflexivity|].
  apply (valid_batch_is_stored_in_document_order sample_env one_policy_stored
           three_policies).
  vm_compute; reflexivity.
Defined.

(** The second policy of [second_policy_broken] has no risk factor; the
    third is not looked at. *)
Lemma first_failing_policy_stops_the_branch_witness :
  policies_of second_policy_broken
  = Ok [policy_1; without "risk_factor" policy_2; policy_3]
  /\ fst (insert_branch sample_env second_policy_broken (connect no_tables))
     = Raise (KeyError "risk_factor")
  /\ committed (snd (insert_branch sample_env second_policy_broken
                       (connect no_tables)))
     = no_tables.
Proof.
  split; [reflexivity|].
  apply (first_failing_policy_stops_the_branch sample_env second_policy_broken
           (JStr "B1") (without "risk_factor" policy_2) [policy_1] [policy_3]).
  - reflexivity.
  - reflexivity.
  - intros q c0 [<- | []].
    destruct (insert_policy_refines sample_env (JStr "B1") policy_1 c0)
      as (c' & Heq & _).
    rewrite Heq. vm_compute. reflexivity.
  - intros c0.
    destruct (insert_policy_refines sample_env (JStr "B1")
                (without "risk_factor" policy_2) c0) as (c' & Heq & _).
    rewrite Heq. vm_compute. reflexivity.
Defined.

(** The three policies after the policy stored before: four entries. *)
Lemma published_document_is_the_table_witness :
  length (policy (tables (snd (upload_and_process sample_env
                                 (sample_world one_policy_stored)
                                 (Parsed three_policies))))) = 4%nat
  /\ s3_objects (snd (upload_and_process sample_env
                        (sample_world one_policy_stored) (Parsed three_policies)))
       !! "insurance_data.json"
     = Some (json_dumps sample_env
               (map (rate general_ci) (policy (tables (snd (upload_and_process sample_env
                                                 (sample_world one_policy_stored)
                                                 (Parsed three_policies))))))).
Proof.
  split; [vm_compute; reflexivity|].
  apply published_document_is_the_table. vm_compute; reflexivity.
Defined.

(** The discount of the third policy is null. *)
Lemma null_field_fails_batch_witness :
  exists e,
    upload_and_process sample_env (sample_world one_policy_stored)
      (Parsed third_discount_null)
    = (internal_error e, sample_world one_policy_stored).
Proof.
  eapply (null_field_fails_batch sample_env _ third_discount_null _ _ _ _
            ["coverage_info"; "discount"]).
  - reflexivity.
  - left; reflexivity.
  - reflexivity.
  - right; right; left; reflexivity.
  - do 14 right. left. reflexivity.
  - reflexivity.
Defined.
